(** * radish: the feature-file AST builder ([radish/parser/transformer.py])

    A shallow embedding of [RadishGherkinTransformer] and the properties of
    its reductions.  Python values are embedded in one tagged universe
    ([value]); the instance attributes of the transformer form an explicit
    [state] threaded through a state-and-exception monad ([M]).  An
    exception leaves the attributes as they were when it was raised, as in
    Python, so the monad returns the state on both outcomes. *)

From Stdlib Require Import ZArith NArith List String Ascii Lia.
From stdpp Require Import base tactics option list gmap sets.

Local Open Scope Z_scope.

(** ** Python [str]

    A [str] is a sequence of Unicode code points. *)

Definition pychar := N.
Definition pystr := list pychar.

(** A literal of the development: the code points of an ASCII string. *)
Definition py (s : string) : pystr := map N_of_ascii (list_ascii_of_string s).

Module Py.

(** [str.isspace] on one character: the code points CPython's
    [Py_UNICODE_ISSPACE] accepts. *)
Definition isspace (c : pychar) : bool :=
  ((9 <=? c) && (c <=? 13) || (28 <=? c) && (c <=? 32) || (c =? 133)
   || (c =? 160) || (c =? 5760) || (8192 <=? c) && (c <=? 8202)
   || (c =? 8232) || (c =? 8233) || (c =? 8239) || (c =? 8287)
   || (c =? 12288))%N.

Fixpoint lstrip (s : pystr) : pystr :=
  match s with
  | c :: s' => if isspace c then lstrip s' else s
  | [] => []
  end.

Definition rstrip (s : pystr) : pystr := rev (lstrip (rev s)).

(** [s.strip()] *)
Definition strip (s : pystr) : pystr := rstrip (lstrip s).

(** The line boundaries of [str.splitlines]: \n \v \f \r \x1c \x1d \x1e
    \x85     (and \r\n, taken as one boundary). *)
Definition is_linebreak (c : pychar) : bool :=
  ((10 <=? c) && (c <=? 13) || (28 <=? c) && (c <=? 30) || (c =? 133)
   || (c =? 8232) || (c =? 8233))%N.

Definition starts_with_lf (s : pystr) : bool :=
  match s with
  | c :: _ => (c =? 10)%N
  | [] => false
  end.

(** [s.splitlines(True)]: the lines of [s], each with its line break.
    A character closes a line when it is a line break, except a \r
    directly followed by \n, which stays in front of that \n. *)
Fixpoint splitlines_keepends (s : pystr) : list pystr :=
  match s with
  | [] => []
  | c :: s' =>
      if is_linebreak c && negb ((c =? 13)%N && starts_with_lf s')
      then [c] :: splitlines_keepends s'
      else match splitlines_keepends s' with
           | [] => [[c]]
           | l :: ls => (c :: l) :: ls
           end
  end.

(** [s.replace(r"\|", "|")]: every non-overlapping backslash-bar pair,
    left to right, becomes a bar. *)
Fixpoint replace_escaped_vbar (s : pystr) : pystr :=
  match s with
  | [] => []
  | c :: s' =>
      match s' with
      | d :: s'' =>
          if ((c =? 92) && (d =? 124))%N
          then 124%N :: replace_escaped_vbar s''
          else c :: replace_escaped_vbar s'
      | [] => [c]
      end
  end.

(** Slice bounds as [list.__getitem__] normalises them: a negative
    index counts from the end, and both ends are clipped to the list. *)
Definition slice_index (len i : Z) : nat :=
  Z.to_nat (if i <? 0 then Z.max (i + len) 0 else Z.min i len).

(** [l[lo:hi]] *)
Definition slice {A} (l : list A) (lo hi : Z) : list A :=
  let n := Z.of_nat (length l) in
  let a := slice_index n lo in
  let b := slice_index n hi in
  firstn (b - a) (skipn a l).

(** [l[-1]]; [None] stands for [IndexError]. *)
Definition last_item {A} (l : list A) : option A := last l.

Definition digit_value (c : pychar) : option Z :=
  if ((48 <=? c) && (c <=? 57))%N then Some (Z.of_N c - 48) else None.

(** The digits of a decimal literal, most significant first; a single
    underscore may separate two digits. *)
Fixpoint digits (acc : Z) (after_digit : bool) (s : pystr) : option Z :=
  match s with
  | [] => if after_digit then Some acc else None
  | c :: s' =>
      if (c =? 95)%N
      then (if after_digit then digits acc false s' else None)
      else match digit_value c with
           | Some d => digits (10 * acc + d) true s'
           | None => None
           end
  end.

(** The white space [int] skips at both ends of an ASCII string: the
    characters of C's [isspace], that is \t \n \v \f \r and the space. *)
Definition is_ascii_space (c : pychar) : bool :=
  ((9 <=? c) && (c <=? 13) || (c =? 32))%N.

Fixpoint lstrip_ascii (s : pystr) : pystr :=
  match s with
  | c :: s' => if is_ascii_space c then lstrip_ascii s' else s
  | [] => []
  end.

Definition strip_ascii (s : pystr) : pystr :=
  rev (lstrip_ascii (rev (lstrip_ascii s))).

(** [int(s)] on a [str] made of ASCII characters: optional surrounding
    white space, an optional sign, decimal digits.  [None] stands for
    [ValueError]. *)
Definition int_of_str (s : pystr) : option Z :=
  match strip_ascii s with
  | c :: s' =>
      if (c =? 45)%N then Z.opp <$> digits 0 false s'
      else if (c =? 43)%N then digits 0 false s'
      else digits 0 false (c :: s')
  | [] => None
  end.

Definition is_ascii (s : pystr) : bool := forallb (fun c => (c <? 128)%N) s.

End Py.

(** ** [textwrap.dedent]

    The regular-expression implementation of CPython's [textwrap] module.
    Its three expressions are anchored at line starts ([re.MULTILINE], a
    line being what lies between two \n), so each acts on the \n-separated
    segments of the text one by one; the embedding splits the text at \n,
    treats every segment and joins the segments again. *)
Module Textwrap.

(** [text.split("\n")]: never empty. *)
Fixpoint split_nl (s : pystr) : list pystr :=
  match s with
  | [] => [[]]
  | c :: s' =>
      if (c =? 10)%N then [] :: split_nl s'
      else match split_nl s' with
           | [] => [[c]]
           | l :: ls => (c :: l) :: ls
           end
  end.

(** ["\n".join(segments)] *)
Fixpoint join_nl (ls : list pystr) : pystr :=
  match ls with
  | [] => []
  | [l] => l
  | l :: ls' => l ++ 10%N :: join_nl ls'
  end.

(** The character class [[ \t]]. *)
Definition is_blank (c : pychar) : bool := ((c =? 32) || (c =? 9))%N.

(** [_whitespace_only_re.sub('', text)]: a segment made of one or more
    blanks and nothing else is emptied. *)
Definition blank_out (seg : pystr) : pystr :=
  if forallb is_blank seg then [] else seg.

Fixpoint leading_blanks (seg : pystr) : pystr :=
  match seg with
  | c :: seg' => if is_blank c then c :: leading_blanks seg' else []
  | [] => []
  end.

(** [_leading_whitespace_re.findall(text)]: the expression matches, at
    a line start, the longest run of blanks that is followed by a
    character other than blank and \n: one indent for every segment that
    has a character other than a blank. *)
Definition indent_of (seg : pystr) : option pystr :=
  if forallb is_blank seg then None else Some (leading_blanks seg).

Definition indents (segs : list pystr) : list pystr :=
  omap indent_of segs.

Fixpoint startswith (s p : pystr) : bool :=
  match p, s with
  | [], _ => true
  | c :: p', d :: s' => (c =? d)%N && startswith s' p'
  | _ :: _, [] => false
  end.

(** The [for i, (x, y) in enumerate(zip(margin, indent))] loop: the
    margin cut at the first position where the two differ, unchanged
    when there is none. *)
Fixpoint cut_at_mismatch (margin indent : pystr) : pystr :=
  match margin, indent with
  | x :: margin', y :: indent' =>
      if (x =? y)%N then x :: cut_at_mismatch margin' indent' else []
  | _, _ => margin
  end.

(** One turn of the [for indent in indents] loop. *)
Definition margin_step (margin : option pystr) (indent : pystr)
  : option pystr :=
  match margin with
  | None => Some indent
  | Some m =>
      if startswith indent m then Some m
      else if startswith m indent then Some indent
      else Some (cut_at_mismatch m indent)
  end.

Definition margin_of (segs : list pystr) : option pystr :=
  fold_left margin_step (indents segs) None.

(** [re.sub(r'(?m)^' + margin, '', text)] on one segment. *)
Definition remove_margin (margin seg : pystr) : pystr :=
  if startswith seg margin then skipn (length margin) seg else seg.

Definition dedent (text : pystr) : pystr :=
  let segs := map blank_out (split_nl text) in
  match margin_of segs with
  | Some (c :: m) => join_nl (map (remove_margin (c :: m)) segs)
  | _ => join_nl segs
  end.

End Textwrap.

(** ** Python values

    What the reductions receive and return.  The model classes of
    [radish.models] are records of their constructor arguments, in the
    order the transformer passes them. *)

#[warnings="-register-all"]
Inductive value :=
| VNone
| VInt (z : Z)
| VStr (s : pystr)
    (** a plain [str] *)
| VToken (s : pystr) (line : Z)
    (** a [lark.Token]: a [str] with the source line of its first character *)
| VList (items : list value)
| VTuple (items : list value)
| VDict (items : list (value * value))
    (** a [dict], in insertion order *)
| VTree (data : pystr) (children : list value)
    (** a [lark.Tree] left as it is, for a rule without a reduction *)
| VTag (name : pystr) (path : pystr) (line : Z)
| VStep (id : Z) (keyword_ctx keyword : pystr) (text doc_string data_table : value)
        (path : pystr) (line : Z)
| VScenario (id : Z) (short_description : value) (tags : list value)
            (path : pystr) (line : Z) (steps : list value)
| VScenarioOutline (id : Z) (short_description : value) (tags : list value)
                   (path : pystr) (line : Z) (steps : list value)
                   (examples : value)
| VScenarioLoop (id : Z) (short_description : value) (tags : list value)
                (path : pystr) (line : Z) (steps : list value)
                (iterations : value)
| VBackground (short_description : value) (path : pystr) (line : Z)
              (steps : list value)
| VRule (short_description : value) (path : pystr) (line : Z)
        (scenarios : list value) (background : value)
| VDefaultRule (path : pystr) (line : Z) (scenarios : list value)
               (background : value)
| VFeature (id : option Z) (short_description description : value)
           (tags : list value) (path : pystr) (line : Z)
           (background rules : value).

(** The back references [Scenario.set_rule] and [Rule.set_feature] install
    point from a child to the object that owns it; an owner is a term that
    contains its children, so they are left out of the terms.
    [Rule.set_background] sets the last field of a rule, [VNone] until
    then. *)

(** ** Exceptions *)

Inductive py_exception :=
| TypeError
| ValueError
| IndexError
| AttributeError.

(** The three errors of [radish.parser.errors] are raised with an empty
    argument list, hence the constant constructors.  [Unmodelled] marks
    the inputs on which Python goes on with a value this embedding has no
    term for ([str] of an object that is no string, [int] of a string with
    characters outside ASCII, a [dict] key that is an object). *)
Inductive error :=
| RadishStepDataTableInconsistentCellCount
| RadishScenarioOutlineExamplesInconsistentCellCount
| RadishFirstStepMustUseFirstLevelKeyword
| PyException (e : py_exception)
| Unmodelled.

Inductive outcome (A : Type) :=
| Return (a : A)
| Raise (e : error).
Arguments Return {A} a.
Arguments Raise {A} e.

(** ** The transformer's attributes

    [None] is Python's [None], the value [__init__] gives to an attribute;
    [featurefile_path] does not exist before [prepare], which [None]
    stands for as well. *)
Record state := State {
  featurefile_path : option pystr;
  featurefile_contents : option (list pystr);
  feature_id : option Z;
  step_id : option Z;
  scenario_id : option Z;
  step_keyword_ctx : option pystr
}.

Definition set_step_id (v : option Z) (st : state) : state :=
  State (featurefile_path st) (featurefile_contents st) (feature_id st)
        v (scenario_id st) (step_keyword_ctx st).

Definition set_scenario_id (v : option Z) (st : state) : state :=
  State (featurefile_path st) (featurefile_contents st) (feature_id st)
        (step_id st) v (step_keyword_ctx st).

Definition set_step_keyword_ctx (v : option pystr) (st : state) : state :=
  State (featurefile_path st) (featurefile_contents st) (feature_id st)
        (step_id st) (scenario_id st) v.

(** ** The monad of the reductions *)

Definition M (A : Type) : Type := state -> outcome A * state.

#[global] Instance M_ret : MRet M := fun A a st => (Return a, st).

#[global] Instance M_bind : MBind M := fun A B k m st =>
  match m st with
  | (Return a, st') => k a st'
  | (Raise e, st') => (Raise e, st')
  end.

Definition raise {A} (e : error) : M A := fun st => (Raise e, st).
Definition py_raise {A} (e : py_exception) : M A := raise (PyException e).
Definition gets {A} (f : state -> A) : M A := fun st => (Return (f st), st).
Definition modify (f : state -> state) : M unit := fun st => (Return tt, f st).

(** An optional result whose absence is the exception [e]. *)
Definition require {A} (e : error) (o : option A) : M A :=
  match o with
  | Some a => mret a
  | None => raise e
  end.

Fixpoint mapM_ {A B} (f : A -> M B) (l : list A) : M (list B) :=
  match l with
  | [] => mret []
  | a :: l' => b ← f a; bs ← mapM_ f l'; mret (b :: bs)
  end.

(** ** Operations on values *)

Definition is_str (v : value) : bool :=
  match v with VStr _ | VToken _ _ => true | _ => false end.
Definition is_Tag (v : value) : bool :=
  match v with VTag _ _ _ => true | _ => false end.
Definition is_Step (v : value) : bool :=
  match v with VStep _ _ _ _ _ _ _ _ => true | _ => false end.
Definition is_Background (v : value) : bool :=
  match v with VBackground _ _ _ _ => true | _ => false end.
(** [DefaultRule] derives from [Rule]. *)
Definition is_Rule (v : value) : bool :=
  match v with VRule _ _ _ _ _ | VDefaultRule _ _ _ _ => true | _ => false end.
(** The objects with a [set_rule] method: the three scenario classes. *)
Definition is_Scenario (v : value) : bool :=
  match v with
  | VScenario _ _ _ _ _ _ | VScenarioOutline _ _ _ _ _ _ _
  | VScenarioLoop _ _ _ _ _ _ _ => true
  | _ => false
  end.

(** [itertools.takewhile] *)
Fixpoint takewhile {A} (p : A -> bool) (l : list A) : list A :=
  match l with
  | a :: l' => if p a then a :: takewhile p l' else []
  | [] => []
  end.

(** [bool(v)], the test of an [if]. *)
Definition truthy (v : value) : bool :=
  match v with
  | VNone => false
  | VInt z => negb (z =? 0)
  | VStr s | VToken s _ => negb (Nat.eqb (length s) 0)
  | VList l | VTuple l => negb (Nat.eqb (length l) 0)
  | VDict d => negb (Nat.eqb (length d) 0)
  | _ => true
  end.

(** [len(v)] *)
Definition py_len (v : value) : M nat :=
  match v with
  | VStr s | VToken s _ => mret (length s)
  | VList l | VTuple l => mret (length l)
  | VDict d => mret (length d)
  | _ => py_raise TypeError
  end.

(** [iter(v)]: the items a [for], a [zip] or an unpacking goes through. *)
Definition py_iter (v : value) : M (list value) :=
  match v with
  | VStr s | VToken s _ => mret (map (fun c => VStr [c]) s)
  | VList l | VTuple l => mret l
  | VDict d => mret (map fst d)
  | _ => py_raise TypeError
  end.

(** [v.line] *)
Definition attr_line (v : value) : M Z :=
  match v with
  | VToken _ l | VTag _ _ l | VStep _ _ _ _ _ _ _ l
  | VScenario _ _ _ _ l _ | VScenarioOutline _ _ _ _ l _ _
  | VScenarioLoop _ _ _ _ l _ _ | VBackground _ _ l _ | VRule _ _ l _ _
  | VDefaultRule _ l _ _ | VFeature _ _ _ _ _ l _ _ => mret l
  | _ => py_raise AttributeError
  end.

(** [v.path] *)
Definition attr_path (v : value) : M pystr :=
  match v with
  | VTag _ p _ | VStep _ _ _ _ _ _ p _
  | VScenario _ _ _ p _ _ | VScenarioOutline _ _ _ p _ _ _
  | VScenarioLoop _ _ _ p _ _ _ | VBackground _ p _ _ | VRule _ p _ _ _
  | VDefaultRule p _ _ _ | VFeature _ _ _ _ p _ _ _ => mret p
  | _ => py_raise AttributeError
  end.

(** [v.strip()] *)
Definition py_strip (v : value) : M pystr :=
  match v with
  | VStr s | VToken s _ => mret (Py.strip s)
  | _ => py_raise AttributeError
  end.

(** [str(v)] *)
Definition py_str (v : value) : M pystr :=
  match v with
  | VStr s | VToken s _ => mret s
  | _ => raise Unmodelled
  end.

(** [int(v)] *)
Definition py_int (v : value) : M Z :=
  match v with
  | VInt z => mret z
  | VStr s | VToken s _ =>
      if Py.is_ascii s then require (PyException ValueError) (Py.int_of_str s)
      else raise Unmodelled
  | _ => py_raise TypeError
  end.

(** [l[i]] *)
Definition py_index (l : list value) (i : nat) : M value :=
  require (PyException IndexError) (nth_error l i).

(** Keys of a [dict]: [None], integers and plain strings are compared by
    value; a list or a dict is not hashable. *)
Definition key_eqb (a b : value) : bool :=
  match a, b with
  | VNone, VNone => true
  | VInt x, VInt y => x =? y
  | VStr s, VStr t => bool_decide (s = t)
  | _, _ => false
  end.

Definition check_key (k : value) : M unit :=
  match k with
  | VNone | VInt _ | VStr _ => mret tt
  | VList _ | VDict _ => py_raise TypeError
  | _ => raise Unmodelled
  end.

(** [d[k] = v]: a key already present keeps its place. *)
Fixpoint dict_set (d : list (value * value)) (k v : value)
  : list (value * value) :=
  match d with
  | [] => [(k, v)]
  | (k', v') :: d' =>
      if key_eqb k k' then (k', v) :: d' else (k', v') :: dict_set d' k v
  end.

Fixpoint dict_of_pairs (d : list (value * value)) (kvs : list (value * value))
  : M (list (value * value)) :=
  match kvs with
  | [] => mret d
  | (k, v) :: kvs' => _ ← check_key k; dict_of_pairs (dict_set d k v) kvs'
  end.

(** [dict(zip(header, row))] *)
Definition dict_zip (header row : value) : M value :=
  ks ← py_iter header;
  vs ← py_iter row;
  d ← dict_of_pairs [] (combine ks vs);
  mret (VDict d).

(** [a, b = v] *)
Definition unpack2 (v : value) : M (value * value) :=
  items ← py_iter v;
  match items with
  | [a; b] => mret (a, b)
  | _ => py_raise ValueError
  end.

(** [a, b, c = v] *)
Definition unpack3 (v : value) : M (value * value * value) :=
  items ← py_iter v;
  match items with
  | [a; b; c] => mret (a, b, c)
  | _ => py_raise ValueError
  end.

(** [self.featurefile_path], an attribute [prepare] creates. *)
Definition get_featurefile_path : M pystr :=
  p ← gets featurefile_path; require (PyException AttributeError) p.

(** [len({len(row) for row in table}) > 1] *)
Definition distinct_lengths (lens : list nat) : nat :=
  size (list_to_set lens : gset nat).

(** ** [RadishGherkinTransformer] *)

Definition FIRST_LEVEL_STEP_KEYWORDS : gset pystr :=
  {[ py "Given"; py "When"; py "Then" ]}.
Definition SECOND_LEVEL_STEP_KEYWORDS : gset pystr :=
  {[ py "And"; py "But" ]}.

Definition __init__ : state :=
  State None None None None None None.

Definition prepare (featurefile_path : pystr) (featurefile_contents : pystr)
    (feature_id : Z) (st : state) : state :=
  State (Some featurefile_path)
        (Some (Py.splitlines_keepends featurefile_contents))
        (Some feature_id)
        (Some 1)
        (Some 1)
        (step_keyword_ctx st).

Definition start (subtree : list value) : M value :=
  match subtree with
  | v :: _ => mret v
  | [] => mret VNone
  end.

Definition step_doc_string (subtree : list value) : M value :=
  first ← py_index subtree 0;
  first_line ← attr_line first;
  let startline := first_line - 1 in
  last ← require (PyException IndexError) (Py.last_item subtree);
  endline ← attr_line last;
  contents ← gets featurefile_contents;
  contents ← require (PyException TypeError) contents;
  let lines := concat (Py.slice contents startline endline) in
  mret (VStr (Textwrap.dedent lines)).

Definition _table_cell (subtree : list value) : M value :=
  cell ← py_index subtree 0;
  raw_cell_value ← py_strip cell;
  mret (VStr (Py.replace_escaped_vbar raw_cell_value)).

Definition _table_row (subtree : list value) : M value :=
  mret (VList subtree).

Definition step_data_table_cell := _table_cell.
Definition step_data_table_row := _table_row.

Definition step_data_table (subtree : list value) : M value :=
  lens ← mapM_ py_len subtree;
  if (1 <? distinct_lengths lens)%nat
  then raise RadishStepDataTableInconsistentCellCount
  else mret (VList subtree).

Definition step_arguments (subtree : list value) : M value :=
  match subtree with
  | [] => mret (VTuple [VNone; VNone])
  | [doc_string; data_table] => mret (VTuple [doc_string; data_table])
  | v :: _ =>
      if is_str v then mret (VTuple [v; VNone]) else mret (VTuple [VNone; v])
  end.

Definition step (subtree : list value) : M value :=
  match subtree with
  | [keyword; text; arguments] =>
      '(doc_string, data_table) ← unpack2 arguments;
      keyword_line ← attr_line keyword;
      keyword ← py_strip keyword;
      ctx ← gets step_keyword_ctx;
      keyword_ctx ←
        match ctx with
        | None =>
            if bool_decide (keyword ∈ FIRST_LEVEL_STEP_KEYWORDS)
            then _ ← modify (set_step_keyword_ctx (Some keyword)); mret keyword
            else raise RadishFirstStepMustUseFirstLevelKeyword
        | Some ctx =>
            if bool_decide (keyword ∈ FIRST_LEVEL_STEP_KEYWORDS)
            then if bool_decide (keyword ≠ ctx)
                 then _ ← modify (set_step_keyword_ctx (Some keyword));
                      mret keyword
                 else mret ctx
            else mret ctx
        end;
      path ← get_featurefile_path;
      id ← gets step_id;
      id ← require (PyException TypeError) id;
      _ ← modify (set_step_id (Some (id + 1)));
      mret (VStep id keyword_ctx keyword text doc_string data_table
                  path keyword_line)
  | _ => py_raise ValueError
  end.

Definition scenario (subtree : list value) : M value :=
  let tags := takewhile is_Tag subtree in
  match skipn (length tags) subtree with
  | short_description :: steps =>
      path ← get_featurefile_path;
      line ← attr_line short_description;
      id ← gets scenario_id;
      id ← require (PyException TypeError) id;
      _ ← modify (set_scenario_id (Some (id + 1)));
      _ ← modify (set_step_id (Some 1));
      _ ← modify (set_step_keyword_ctx None);
      mret (VScenario id short_description tags path line steps)
  | [] => py_raise ValueError
  end.

Definition example_cell := _table_cell.
Definition example_row := _table_row.

Definition examples (subtree : list value) : M value :=
  lens ← mapM_ py_len subtree;
  if (1 <? distinct_lengths lens)%nat
  then raise RadishScenarioOutlineExamplesInconsistentCellCount
  else match subtree with
       | header :: rows =>
           table ← mapM_ (dict_zip header) rows;
           mret (VList table)
       | [] => py_raise ValueError
       end.

Definition scenario_outline (subtree : list value) : M value :=
  let tags := takewhile is_Tag subtree in
  short_description ← py_index subtree (length tags);
  let steps := takewhile is_Step (skipn (length tags + 1) subtree) in
  examples_table ←
    py_index (skipn (length tags + 1 + length steps) subtree) 0;
  path ← get_featurefile_path;
  line ← attr_line short_description;
  rows ← py_len examples_table;
  id ← gets scenario_id;
  id ← require (PyException TypeError) id;
  _ ← modify (set_scenario_id (Some (id + (1 + Z.of_nat rows))));
  _ ← modify (set_step_id (Some 1));
  mret (VScenarioOutline id short_description tags path line steps
                         examples_table).

Definition iterations (subtree : list value) : M value :=
  v ← py_index subtree 0;
  n ← py_int v;
  mret (VInt n).

Definition scenario_loop (subtree : list value) : M value :=
  let tags := takewhile is_Tag subtree in
  short_description ← py_index subtree (length tags);
  let steps := takewhile is_Step (skipn (length tags + 1) subtree) in
  iterations ← py_index subtree (length tags + 1 + length steps);
  path ← get_featurefile_path;
  line ← attr_line short_description;
  n ← match iterations with
      | VInt n => mret n
      | _ => py_raise TypeError
      end;
  id ← gets scenario_id;
  id ← require (PyException TypeError) id;
  _ ← modify (set_scenario_id (Some (id + (1 + n))));
  _ ← modify (set_step_id (Some 1));
  mret (VScenarioLoop id short_description tags path line steps iterations).

Definition background (subtree : list value) : M value :=
  let '(short_description, steps) :=
    match subtree with
    | [] => (VNone, [])
    | v :: rest => if is_Step v then (VNone, subtree) else (v, rest)
    end in
  path ← get_featurefile_path;
  line ← (if truthy short_description then attr_line short_description
          else mret 0);
  mret (VBackground short_description path line steps).

(** [for scenario in scenarios: scenario.set_rule(rule)]: the call needs
    the method. *)
Definition set_rule_all (scenarios : list value) : M unit :=
  if forallb is_Scenario scenarios then mret tt else py_raise AttributeError.

Definition rule (subtree : list value) : M value :=
  short_description ← py_index subtree 0;
  let scenarios := skipn 1 subtree in
  path ← get_featurefile_path;
  line ← attr_line short_description;
  _ ← set_rule_all scenarios;
  mret (VRule short_description path line scenarios VNone).

Definition description (description_lines : list value) : M value :=
  lines ← mapM_ (fun l => s ← py_str l; mret (VStr s)) description_lines;
  mret (VList lines).

(** The argument is the list [feature_body] builds by unpacking, never a
    [Background] or a [Scenario] object itself, so of the three tests on
    a non-empty argument only the last, on its first item, can hold. *)
Definition _expand_background_and_scenarios (scenarios : list value)
  : value * list value :=
  match scenarios with
  | first :: rest =>
      if is_Background first then (first, rest) else (VNone, scenarios)
  | [] => (VNone, scenarios)
  end.

(** [rule.set_background(background)] *)
Definition set_background (background : value) (rule : value) : M value :=
  match rule with
  | VRule d p l scs _ => mret (VRule d p l scs background)
  | VDefaultRule p l scs _ => mret (VDefaultRule p l scs background)
  | _ => py_raise AttributeError
  end.

Definition feature_body (subtree : list value) : M value :=
  match subtree with
  | description :: scenarios =>
      let '(background, scenarios) :=
        _expand_background_and_scenarios scenarios in
      let scenarios_for_default_rule :=
        takewhile (fun s => negb (is_Rule s)) scenarios in
      let rules := skipn (length scenarios_for_default_rule) scenarios in
      rules ←
        match scenarios_for_default_rule with
        | first :: _ =>
            path ← attr_path first;
            line ← attr_line first;
            _ ← set_rule_all scenarios_for_default_rule;
            mret (VDefaultRule path line scenarios_for_default_rule VNone
                    :: rules)
        | [] => mret rules
        end;
      rules ← mapM_ (set_background background) rules;
      mret (VTuple [description; background; VList rules])
  | [] => py_raise ValueError
  end.

(** [for rule in rules: rule.set_feature(feature)]: the call needs the
    method. *)
Definition set_feature_all (rules : value) : M unit :=
  rules ← py_iter rules;
  if forallb is_Rule rules then mret tt else py_raise AttributeError.

Definition feature (subtree : list value) : M value :=
  let tags := takewhile is_Tag subtree in
  short_description ← py_index subtree (length tags);
  '(description, background, rules) ←
    match skipn (length tags + 1) subtree with
    | body :: _ => unpack3 body
    | [] => mret (VNone, VNone, VList [])
    end;
  id ← gets feature_id;
  path ← get_featurefile_path;
  line ← attr_line short_description;
  _ ← set_feature_all rules;
  mret (VFeature id short_description description tags path line
                 background rules).

Definition tag (subtree : list value) : M value :=
  tag_name ← py_index subtree 0;
  name ← py_str tag_name;
  path ← get_featurefile_path;
  line ← attr_line tag_name;
  mret (VTag name path line).

(** ** The traversal

    [lark.Transformer.transform]: the children of a node are reduced from
    left to right, then the node itself, by the method named after its
    rule; a token stays as it is.  An exception of a method reaches the
    caller wrapped in a [VisitError] that keeps it as [orig_exc]; the
    embedding names the exception itself.

    The method is looked up with [getattr(self, tree.data)].  For the
    twenty rules that have a reduction in [RadishGherkinTransformer] this
    is that reduction.  For any other name the outcome depends on what
    else the object answers to: a name that is no attribute at all gives
    the node back as a [Tree], but a name such as [__init__] or [prepare]
    calls that attribute, and the attributes of [lark.Transformer] and of
    [object] are not part of this source.  The embedding gives no account
    of such a node ([Unmodelled]); the properties of whole traversals are
    stated for the trees all of whose rules have a reduction
    ([known_tree]). *)

#[warnings="-register-all"]
Inductive tree :=
| Tree (data : pystr) (children : list tree)
| Token (text : pystr) (line : Z).

Definition _call_userfunc (data : pystr) (children : list value) : M value :=
  if bool_decide (data = py "start") then start children
  else if bool_decide (data = py "step_doc_string") then step_doc_string children
  else if bool_decide (data = py "step_data_table_cell") then step_data_table_cell children
  else if bool_decide (data = py "step_data_table_row") then step_data_table_row children
  else if bool_decide (data = py "step_data_table") then step_data_table children
  else if bool_decide (data = py "step_arguments") then step_arguments children
  else if bool_decide (data = py "step") then step children
  else if bool_decide (data = py "scenario") then scenario children
  else if bool_decide (data = py "example_cell") then example_cell children
  else if bool_decide (data = py "example_row") then example_row children
  else if bool_decide (data = py "examples") then examples children
  else if bool_decide (data = py "scenario_outline") then scenario_outline children
  else if bool_decide (data = py "iterations") then iterations children
  else if bool_decide (data = py "scenario_loop") then scenario_loop children
  else if bool_decide (data = py "background") then background children
  else if bool_decide (data = py "rule") then rule children
  else if bool_decide (data = py "description") then description children
  else if bool_decide (data = py "feature_body") then feature_body children
  else if bool_decide (data = py "feature") then feature children
  else if bool_decide (data = py "tag") then tag children
  else raise Unmodelled.

Fixpoint transform (t : tree) : M value :=
  match t with
  | Token text line => mret (VToken text line)
  | Tree data children =>
      children ←
        (fix transform_children (ts : list tree) : M (list value) :=
           match ts with
           | [] => mret []
           | c :: ts' =>
               v ← transform c;
               vs ← transform_children ts';
               mret (v :: vs)
           end) children;
      _call_userfunc data children
  end.

(** One file: [prepare], then [transform] on the tree of the file. *)
Definition build (path contents : pystr) (feature_id : Z) (t : tree)
    (st : state) : outcome value * state :=
  transform t (prepare path contents feature_id st).

(** ** What the table reductions return *)

(** The [dict] built from key and value pairs, in their order. *)
Definition dict_of (kvs : list (value * value)) : list (value * value) :=
  fold_left (fun d kv => dict_set d (fst kv) (snd kv)) kvs [].

(** A row of cells as [_table_row] returns it over the strings of
    [_table_cell]. *)
Definition row_of_cells (cells : list pystr) : value :=
  VList (map VStr cells).

(** The mapping of an examples row: the header names zipped with the
    cells of the row. *)
Definition example_of (header row : list pystr) : value :=
  VDict (dict_of (combine (map VStr header) (map VStr row))).

(** Every exception a computation raises satisfies [Q]. *)
Definition raises {A} (Q : error -> Prop) (m : M A) : Prop :=
  forall st e st', m st = (Raise e, st') -> Q e.

(** An exception that is none of the three errors of the parser. *)
Definition no_parser_error (e : error) : Prop :=
  match e with
  | PyException _ | Unmodelled => True
  | _ => False
  end.

(** A computation that neither reads nor writes the attributes. *)
Definition stateless {A} (m : M A) : Prop :=
  exists o, forall st, m st = (o, st).

(** The steps that the subtrees [step_tree] of [specs] give when they are
    reduced one after the other from the step id [id] and the keyword
    context [ctx]. *)
Fixpoint built_steps (path : pystr) (id : Z) (ctx : pystr)
    (specs : list (pystr * pystr * Z)) : list value :=
  match specs with
  | [] => []
  | (keyword, text, line) :: specs' =>
      let keyword := Py.strip keyword in
      let ctx' :=
        if bool_decide (keyword ∈ FIRST_LEVEL_STEP_KEYWORDS)
        then keyword else ctx in
      VStep id ctx' keyword (VToken text line) VNone VNone path line
        :: built_steps path (id + 1) ctx' specs'
  end.

(** The first step of a block must have a first-level keyword when no
    keyword context is set. *)
Definition first_keyword_ok (ctx : option pystr)
    (specs : list (pystr * pystr * Z)) : Prop :=
  match ctx, specs with
  | None, (keyword, _, _) :: _ =>
      Py.strip keyword ∈ FIRST_LEVEL_STEP_KEYWORDS
  | _, _ => True
  end.

(** ** The text of a doc string *)

Definition LF : pystr := [10%N].

(** The cached lines [start_line] to [end_line], counted from 1, both
    included, one after the other. *)
Definition source_slice (lines : list pystr) (start_line end_line : Z)
  : pystr :=
  concat (firstn (Z.to_nat (end_line - start_line + 1))
                 (skipn (Z.to_nat (start_line - 1)) lines)).

(** The text as the specification words it: the least number of leading
    blanks over the lines that are not empty is taken off every line, and
    nothing else changes. *)
Module DocStringSpec.

Definition leading_width (seg : pystr) : nat :=
  length (Textwrap.leading_blanks seg).

Definition nonempty (seg : pystr) : bool := negb (Nat.eqb (length seg) 0).

Definition min_width (segs : list pystr) : nat :=
  match List.filter nonempty segs with
  | [] => 0%nat
  | seg :: rest =>
      fold_left Nat.min (map leading_width rest) (leading_width seg)
  end.

Definition dedent (text : pystr) : pystr :=
  let segs := Textwrap.split_nl text in
  Textwrap.join_nl (map (skipn (min_width segs)) segs).

Definition doc_string (lines : list pystr) (start_line end_line : Z)
  : pystr :=
  dedent (source_slice lines start_line end_line).

End DocStringSpec.

(** What [textwrap.dedent] makes of one line, given the margin: a line of
    blanks only is emptied, any other line loses the margin. *)
Definition dedent_line (margin seg : pystr) : pystr :=
  if forallb Textwrap.is_blank seg then [] else skipn (length margin) seg.

(** A doc string of three lines, the second made of six spaces. *)
Definition doc_string_source : pystr :=
  py "    a" ++ LF ++ py "      " ++ LF ++ py "    b" ++ LF.

(** ** Reading a built feature *)

Definition steps_of (v : value) : list value :=
  match v with
  | VScenario _ _ _ _ _ steps | VScenarioOutline _ _ _ _ _ steps _
  | VScenarioLoop _ _ _ _ _ steps _ | VBackground _ _ _ steps => steps
  | _ => []
  end.

Definition step_id_of (v : value) : option Z :=
  match v with VStep id _ _ _ _ _ _ _ => Some id | _ => None end.

Definition keyword_ctx_of (v : value) : option pystr :=
  match v with VStep _ ctx _ _ _ _ _ _ => Some ctx | _ => None end.

Definition scenarios_of (v : value) : list value :=
  match v with
  | VRule _ _ _ scenarios _ | VDefaultRule _ _ scenarios _ => scenarios
  | _ => []
  end.

Definition background_of (v : value) : value :=
  match v with
  | VFeature _ _ _ _ _ _ background _ => background
  | _ => VNone
  end.

(** The scenarios of a feature, rule after rule. *)
Definition feature_scenarios (v : value) : list value :=
  match v with
  | VFeature _ _ _ _ _ _ _ (VList rules) => concat (map scenarios_of rules)
  | _ => []
  end.

(** ** Feature files used below, as the trees the grammar yields *)

Module Sample.

Definition path : pystr := py "features/sample.feature".

Definition step_node (keyword text : string) (line : Z) : tree :=
  Tree (py "step")
       [Token (py keyword) line; Token (py text) line;
        Tree (py "step_arguments") []].

Definition feature_node (line : Z) (scenarios : list tree) : tree :=
  Tree (py "start")
       [Tree (py "feature")
             [Token (py "Sample") line;
              Tree (py "feature_body")
                   (Tree (py "description") [] :: scenarios)]].

(** Feature: Sample / Background: / Given a *)
Definition only_background : tree :=
  feature_node 1
    [Tree (py "background") [step_node "Given " "a" 3]].

(** Feature: Sample / Background: / Given a / Scenario: S / Given b *)
Definition background_then_scenario : tree :=
  feature_node 1
    [Tree (py "background") [step_node "Given " "a" 3];
     Tree (py "scenario") [Token (py "S") 4; step_node "Given " "b" 5]].

Definition cell_node (text : string) (line : Z) : tree :=
  Tree (py "example_cell") [Token (py text) line].

(** Feature: Sample / Scenario Outline: O / Given a / Examples:
    | x | / | 1 | / Scenario: S / And b *)
Definition outline_then_scenario : tree :=
  feature_node 1
    [Tree (py "scenario_outline")
          [Token (py "O") 2; step_node "Given " "a" 3;
           Tree (py "examples")
                [Tree (py "example_row") [cell_node " x " 5];
                 Tree (py "example_row") [cell_node " 1 " 6]]];
     Tree (py "scenario") [Token (py "S") 7; step_node "And " "b" 8]].

(** Feature: Sample / Scenario: S / And b *)
Definition and_first : tree :=
  feature_node 1
    [Tree (py "scenario") [Token (py "S") 2; step_node "And " "b" 3]].

(** The transformer after it has built [only_background]. *)
Definition used : state :=
  snd (build path (py "") 1 only_background __init__).

End Sample.

(** ** Notions used to state the properties of the reductions *)

(** A computation that may read the attributes and leaves them as they
    are, whether it returns or raises. *)
Definition readonly {A} (m : M A) : Prop :=
  forall st, snd (m st) = st.

(** A computation that keeps a property of the attributes, whether it
    returns or raises. *)
Definition preserves {A} (I : state -> Prop) (m : M A) : Prop :=
  forall st, I st -> I (snd (m st)).

(** Every value a computation returns satisfies [Q]. *)
Definition returns {A} (Q : A -> Prop) (m : M A) : Prop :=
  forall st a st', m st = (Return a, st') -> Q a.

Definition not_feature (v : value) : Prop :=
  match v with
  | VFeature _ _ _ _ _ _ _ _ => False
  | _ => True
  end.

(** A value that, if it is a feature, has the feature id and the path of
    the state. *)
Definition feature_of_file (st : state) (v : value) : Prop :=
  match v with
  | VFeature id _ _ _ path _ _ _ =>
      id = feature_id st /\ Some path = featurefile_path st
  | _ => True
  end.

(** Two states of the transformer on the same file: same path, same
    cached lines, same feature id. *)
Definition same_file (st0 st : state) : Prop :=
  featurefile_path st = featurefile_path st0 /\
  featurefile_contents st = featurefile_contents st0 /\
  feature_id st = feature_id st0.

(** The rules whose reductions assign an attribute. *)
Definition writing_rules : list pystr :=
  [py "step"; py "scenario"; py "scenario_outline"; py "scenario_loop"].

(** The rules of the other reductions. *)
Definition reading_rules : list pystr :=
  [py "start"; py "step_doc_string"; py "step_data_table_cell";
   py "step_data_table_row"; py "step_data_table"; py "step_arguments";
   py "example_cell"; py "example_row"; py "examples"; py "iterations";
   py "background"; py "rule"; py "description"; py "feature_body";
   py "feature"; py "tag"].

(** The rules that have a reduction in the transformer. *)
Definition reduction_rules : list pystr := writing_rules ++ reading_rules.

(** A tree all of whose nodes are of a rule that has a reduction. *)
Fixpoint known_tree (t : tree) : bool :=
  match t with
  | Token _ _ => true
  | Tree data children =>
      bool_decide (data ∈ reduction_rules) && forallb known_tree children
  end.

(** The attributes of a transformer that has been prepared and is between
    two reductions of a file: the step counter is at least 1 and the
    keyword context, when set, is a first-level keyword. *)
Definition counting (st : state) : Prop :=
  (exists n, step_id st = Some n /\ 1 <= n) /\
  (forall ctx, step_keyword_ctx st = Some ctx ->
               ctx ∈ FIRST_LEVEL_STEP_KEYWORDS).

(** The value [_table_cell] makes of the text of a cell. *)
Definition cell_value (text : pystr) : pystr :=
  Py.replace_escaped_vbar (Py.strip text).

(** A string with no white space at either end. *)
Definition trimmed (s : pystr) : Prop :=
  (forall c, head s = Some c -> Py.isspace c = false) /\
  (forall c, last s = Some c -> Py.isspace c = false).

(** The row [_table_row] makes of the cells of a row of tokens. *)
Definition cells_of_row (row : list (pystr * Z)) : value :=
  VList (map (fun cell => VStr (cell_value (fst cell))) row).

(** The subtree of a step without arguments: keyword, text, and an empty
    [step_arguments] node. *)
Definition step_tree (spec : pystr * pystr * Z) : tree :=
  let '(keyword, text, line) := spec in
  Tree (py "step")
       [Token keyword line; Token text line; Tree (py "step_arguments") []].

(** The subtree of a data table: rows of cells, a cell being the token of
    its text. *)
Definition data_cell_tree (cell : pystr * Z) : tree :=
  Tree (py "step_data_table_cell") [Token (fst cell) (snd cell)].

Definition data_row_tree (row : list (pystr * Z)) : tree :=
  Tree (py "step_data_table_row") (map data_cell_tree row).

Definition data_table_tree (rows : list (list (pystr * Z))) : tree :=
  Tree (py "step_data_table") (map data_row_tree rows).

(** The subtree of a Scenario without tags: its description and steps
    without arguments. *)
Definition scenario_tree (spec : pystr * Z * list (pystr * pystr * Z))
  : tree :=
  let '(text, line, steps) := spec in
  Tree (py "scenario") (Token text line :: map step_tree steps).

(** The scenarios that the subtrees [scenario_tree] of [specs] give when
    they are reduced one after the other from the scenario id [id], each
    from a step counter of 1 and without keyword context. *)
Fixpoint built_scenarios (path : pystr) (id : Z)
    (specs : list (pystr * Z * list (pystr * pystr * Z))) : list value :=
  match specs with
  | [] => []
  | (text, line, steps) :: specs' =>
      VScenario id (VToken text line) [] path line
                (built_steps path 1 [] steps)
        :: built_scenarios path (id + 1) specs'
  end.

Definition scenario_id_of (v : value) : option Z :=
  match v with
  | VScenario id _ _ _ _ _ | VScenarioOutline id _ _ _ _ _ _
  | VScenarioLoop id _ _ _ _ _ _ => Some id
  | _ => None
  end.

(** The path and the line a scenario was built with. *)
Definition path_of (v : value) : pystr :=
  match v with
  | VScenario _ _ _ p _ _ | VScenarioOutline _ _ _ p _ _ _
  | VScenarioLoop _ _ _ p _ _ _ => p
  | _ => []
  end.

Definition line_of (v : value) : Z :=
  match v with
  | VScenario _ _ _ _ l _ | VScenarioOutline _ _ _ _ l _ _
  | VScenarioLoop _ _ _ _ l _ _ => l
  | _ => 0
  end.

(** The rule [feature_body] makes up for the scenarios that come before
    the first Rule: none when there is no such scenario. *)
Definition default_rule_of (scenarios : list value) : list value :=
  match scenarios with
  | [] => []
  | first :: _ =>
      [VDefaultRule (path_of first) (line_of first) scenarios VNone]
  end.

(** A rule with its background set, as [Rule.set_background] leaves it. *)
Definition with_background (background : value) (rule : value) : value :=
  match rule with
  | VRule d p l scs _ => VRule d p l scs background
  | VDefaultRule p l scs _ => VDefaultRule p l scs background
  | _ => rule
  end.

(** The context keywords of steps reduced one after the other: a
    first-level keyword replaces the context, any other keyword takes
    it. *)
Fixpoint keyword_contexts (ctx : pystr) (keywords : list pystr)
  : list pystr :=
  match keywords with
  | [] => []
  | k :: ks =>
      let ctx' :=
        if bool_decide (k ∈ FIRST_LEVEL_STEP_KEYWORDS) then k else ctx in
      ctx' :: keyword_contexts ctx' ks
  end.

(** * Properties *)

(** ** Running the monad *)

Ltac run :=
  cbv [mbind mret M_bind M_ret gets modify require raise py_raise
       get_featurefile_path attr_line attr_path py_len py_iter py_strip
       py_index unpack2 unpack3];
  simpl.

(** ** The counters and the keyword context between two files *)

Lemma prepare_step_keyword_ctx path contents id st :
  step_keyword_ctx (prepare path contents id st) = step_keyword_ctx st.
Proof. reflexivity. Qed.

(** C3: [prepare] does not touch the step-keyword context.  The
    transformer that has built a feature whose last block is a Background
    with a Given step still holds Given after [prepare], where a fresh
    transformer holds [None]: the state after [prepare] depends on the
    file built before. *)
Theorem prepare_keeps_step_keyword_ctx :
  step_keyword_ctx Sample.used = Some (py "Given") /\
  step_keyword_ctx (prepare Sample.path (py "") 2 Sample.used)
    = Some (py "Given") /\
  step_keyword_ctx (prepare Sample.path (py "") 2 __init__) = None.
Proof. repeat split; vm_compute; reflexivity. Qed.

(** C1: a Background does not reset the step counter.  In the feature
    made of a Background with one step and a Scenario with one step, the
    step of the Background has id 1 and the step of the Scenario id 2. *)
Theorem background_keeps_step_id :
  exists feature scenario,
    fst (build Sample.path (py "") 1 Sample.background_then_scenario __init__)
      = Return feature /\
    feature_scenarios feature = [scenario] /\
    map step_id_of (steps_of (background_of feature)) = [Some 1] /\
    map step_id_of (steps_of scenario) = [Some 2].
Proof.
  eexists _, _. split; [vm_compute; reflexivity|].
  repeat split; vm_compute; reflexivity.
Qed.

(** C2: the keyword context outlives a Scenario Outline.  In the feature
    made of an Outline with the step Given a and a Scenario whose only step
    is And b, the build returns, and that step has the context keyword
    Given of the Outline. *)
Theorem outline_keeps_step_keyword_ctx :
  exists feature outline scenario,
    fst (build Sample.path (py "") 1 Sample.outline_then_scenario __init__)
      = Return feature /\
    feature_scenarios feature = [outline; scenario] /\
    map keyword_ctx_of (steps_of scenario) = [Some (py "Given")].
Proof.
  eexists _, _, _. split; [vm_compute; reflexivity|].
  repeat split; vm_compute; reflexivity.
Qed.

(** C4: two builds of one file, with the same arguments of [prepare],
    differ: on a fresh transformer the feature whose first step is And b
    is refused, on the transformer that has built [only_background]
    before it is built, the step taking Given as its context keyword. *)
Theorem build_depends_on_previous_file :
  fst (build Sample.path (py "") 1 Sample.and_first __init__)
    = Raise RadishFirstStepMustUseFirstLevelKeyword /\
  exists feature scenario,
    fst (build Sample.path (py "") 1 Sample.and_first Sample.used)
      = Return feature /\
    feature_scenarios feature = [scenario] /\
    map keyword_ctx_of (steps_of scenario) = [Some (py "Given")].
Proof.
  split; [vm_compute; reflexivity|].
  eexists _, _. split; [vm_compute; reflexivity|].
  repeat split; vm_compute; reflexivity.
Qed.

(** ** Lists of children *)

Lemma takewhile_app_stop {A} (p : A -> bool) l x rest :
  forallb p l = true -> p x = false -> takewhile p (l ++ x :: rest) = l.
Proof.
  intros Hl Hx. induction l as [|a l IH]; simpl in *.
  - now rewrite Hx.
  - apply andb_prop in Hl as [Ha Hl]. rewrite Ha. f_equal. now apply IH.
Qed.

Lemma skipn_length_plus_app {A} (l rest : list A) n :
  skipn (length l + n) (l ++ rest) = skipn n rest.
Proof. induction l; simpl; auto. Qed.

Lemma nth_error_length_app {A} (l rest : list A) x :
  nth_error (l ++ x :: rest) (length l) = Some x.
Proof. induction l; simpl; auto. Qed.

Lemma mapM__length {A B} (f : A -> M B) l st bs st' :
  mapM_ f l st = (Return bs, st') -> length bs = length l.
Proof.
  revert st bs st'. induction l as [|a l IH]; intros st bs st'; simpl.
  - intros [= <- _]. reflexivity.
  - unfold mbind, M_bind. destruct (f a st) as [[b|e] st1]; [|discriminate].
    fold (@mbind M _).
    destruct (mapM_ f l st1) as [[bs'|e] st2] eqn:E; [|discriminate].
    intros [= <- _]. simpl. f_equal. eapply IH, E.
Qed.

(** ** Scenario Outline *)

Lemma examples_Return subtree st table st' :
  examples subtree st = (Return table, st') ->
  exists dicts, table = VList dicts /\ S (length dicts) = length subtree.
Proof.
  unfold examples, mbind, M_bind.
  destruct (mapM_ py_len subtree st) as [[lens|e] st1]; [|discriminate].
  destruct (1 <? distinct_lengths lens)%nat; [discriminate|].
  destruct subtree as [|header rows]; [discriminate|].
  destruct (mapM_ (dict_zip header) rows st1) as [[ds|e] st2] eqn:E;
    [|discriminate].
  intros [= <- _]. exists ds. split; [reflexivity|].
  simpl. f_equal. eapply mapM__length, E.
Qed.

(** C5: a Scenario Outline whose examples have the header and N rows takes
    the current scenario id, moves the scenario counter on by 1 + N and
    sets the step counter to 1. *)
Theorem scenario_outline_ids
    (st : state) (id : Z) (path : pystr) (tags steps : list value)
    (text : pystr) (line : Z) (header : value) (rows : list value)
    (table : value) :
  scenario_id st = Some id ->
  featurefile_path st = Some path ->
  forallb is_Tag tags = true ->
  forallb is_Step steps = true ->
  fst (examples (header :: rows) st) = Return table ->
  exists st',
    scenario_outline (tags ++ VToken text line :: steps ++ [table]) st
      = (Return (VScenarioOutline id (VToken text line) tags path line steps
                                  table), st') /\
    scenario_id st' = Some (id + (1 + Z.of_nat (length rows))) /\
    step_id st' = Some 1 /\
    step_keyword_ctx st' = step_keyword_ctx st.
Proof.
  intros Hid Hpath Htags Hsteps Hex.
  destruct (examples (header :: rows) st) as [o st1] eqn:E.
  simpl in Hex. subst o.
  apply examples_Return in E as (dicts & -> & Hlen).
  simpl in Hlen. injection Hlen as Hlen.
  unfold scenario_outline.
  rewrite (takewhile_app_stop is_Tag tags) by auto.
  unfold py_index. rewrite nth_error_length_app.
  rewrite skipn_length_plus_app. simpl skipn. rewrite !drop_0.
  rewrite (takewhile_app_stop is_Step steps) by auto.
  replace (tags ++ VToken text line :: steps ++ [VList dicts])
    with ((tags ++ VToken text line :: steps) ++ [VList dicts])
    by (rewrite <- app_assoc; reflexivity).
  replace (length tags + 1 + length steps)%nat
    with (length (tags ++ VToken text line :: steps) + 0)%nat
    by (rewrite length_app; simpl; lia).
  rewrite skipn_length_plus_app.
  run. rewrite Hpath. run. rewrite Hid. run.
  eexists. split; [reflexivity|]. simpl. rewrite Hlen. auto.
Qed.

Lemma scenario_outline_ids_witness :
  exists st',
    scenario_outline
      ([VTag (py "@slow") Sample.path 1] ++ VToken (py "O") 2
         :: [VStep 1 (py "Given") (py "Given") (VToken (py "a") 3) VNone VNone
                   Sample.path 3]
         ++ [VList [VDict [(VStr (py "x"), VStr (py "1"))];
                    VDict [(VStr (py "x"), VStr (py "2"))]]])
      (prepare Sample.path (py "") 1 __init__)
      = (Return (VScenarioOutline 1 (VToken (py "O") 2)
                   [VTag (py "@slow") Sample.path 1] Sample.path 2
                   [VStep 1 (py "Given") (py "Given") (VToken (py "a") 3)
                          VNone VNone Sample.path 3]
                   (VList [VDict [(VStr (py "x"), VStr (py "1"))];
                           VDict [(VStr (py "x"), VStr (py "2"))]])), st') /\
    scenario_id st' = Some (1 + (1 + Z.of_nat 2)) /\
    step_id st' = Some 1 /\
    step_keyword_ctx st' = None.
Proof.
  apply (scenario_outline_ids (prepare Sample.path (py "") 1 __init__) 1
           Sample.path [VTag (py "@slow") Sample.path 1]
           [VStep 1 (py "Given") (py "Given") (VToken (py "a") 3) VNone VNone
                  Sample.path 3]
           (py "O") 2 (VList [VStr (py "x")])
           [VList [VStr (py "1")]; VList [VStr (py "2")]]);
    reflexivity || (vm_compute; reflexivity).
Defined.

(** ** The first step of a block *)

(** C10: with no keyword context, a step whose keyword, white space
    removed, is none of Given, When and Then is refused with
    [RadishFirstStepMustUseFirstLevelKeyword], whatever else the keyword
    is; the attributes stay as they were. *)
Theorem step_without_ctx_refused
    (st : state) (keyword : pystr) (line : Z)
    (text doc_string data_table : value) :
  step_keyword_ctx st = None ->
  Py.strip keyword ∉ FIRST_LEVEL_STEP_KEYWORDS ->
  step [VToken keyword line; text; VTuple [doc_string; data_table]] st
    = (Raise RadishFirstStepMustUseFirstLevelKeyword, st).
Proof.
  intros Hctx Hkw. unfold step. run. rewrite Hctx.
  rewrite bool_decide_eq_false_2 by assumption. reflexivity.
Qed.

Lemma step_without_ctx_refused_witness :
  step_keyword_ctx (prepare Sample.path (py "") 1 __init__) = None /\
  (Py.strip (py "Maybe ") ∉ FIRST_LEVEL_STEP_KEYWORDS) /\
  step [VToken (py "Maybe ") 3; VToken (py "x") 3; VTuple [VNone; VNone]]
       (prepare Sample.path (py "") 1 __init__)
    = (Raise RadishFirstStepMustUseFirstLevelKeyword,
       prepare Sample.path (py "") 1 __init__).
Proof.
  assert (H : Py.strip (py "Maybe ") ∉ FIRST_LEVEL_STEP_KEYWORDS)
    by (apply (bool_decide_eq_false_1 _); vm_compute; reflexivity).
  split; [reflexivity|]. split; [exact H|].
  apply (step_without_ctx_refused
           (prepare Sample.path (py "") 1 __init__) (py "Maybe ") 3
           (VToken (py "x") 3) VNone VNone); [reflexivity | exact H].
Defined.

(** ** Background and scenarios of a feature body *)

Lemma takewhile_app_all {A} (p : A -> bool) l rest :
  forallb p l = true -> forallb (fun x => negb (p x)) rest = true ->
  takewhile p (l ++ rest) = l.
Proof.
  intros Hl Hrest. induction l as [|a l IH]; simpl in *.
  - destruct rest as [|x rest]; [reflexivity|]. simpl in Hrest.
    apply andb_prop in Hrest as [Hx _]. apply negb_true_iff in Hx.
    simpl. now rewrite Hx.
  - apply andb_prop in Hl as [Ha Hl]. rewrite Ha. f_equal. now apply IH.
Qed.

Lemma mapM__Return_Forall {A B} (f : A -> M B) (g : A -> B) l st :
  Forall (fun a => f a st = (Return (g a), st)) l ->
  mapM_ f l st = (Return (map g l), st).
Proof.
  induction 1 as [|a l Ha _ IH]; [reflexivity|].
  cbn [mapM_ map]. unfold mbind at 1, M_bind at 1. rewrite Ha.
  unfold mbind at 1, M_bind at 1. now rewrite IH.
Qed.

Lemma expand_no_background l :
  forallb (fun x => negb (is_Background x)) l = true ->
  _expand_background_and_scenarios l = (VNone, l).
Proof.
  destruct l as [|x l]; [reflexivity|]. simpl.
  intros [Hx _]%andb_prop. apply negb_true_iff in Hx. now rewrite Hx.
Qed.

Lemma scenario_or_rule_not_background l :
  forallb (fun x => is_Scenario x || is_Rule x) l = true ->
  forallb (fun x => negb (is_Background x)) l = true.
Proof.
  intros H. rewrite forallb_forall in *. intros x Hx.
  specialize (H x Hx). now destruct x.
Qed.

Lemma feature_body_well_formed
    (st : state) (description : value) (background : option value)
    (scenarios rules : list value) :
  (forall b, background = Some b -> is_Background b = true) ->
  forallb is_Scenario scenarios = true ->
  forallb is_Rule rules = true ->
  feature_body
    (description :: option_list background ++ scenarios ++ rules) st
    = (Return
         (VTuple [description; default VNone background;
                  VList (map (with_background (default VNone background))
                             (default_rule_of scenarios ++ rules))]), st).
Proof.
  intros Hbg Hscs Hrules. unfold feature_body.
  assert (Hnb : forallb (fun x => negb (is_Background x))
                        (scenarios ++ rules) = true).
  { apply scenario_or_rule_not_background. rewrite forallb_app.
    apply andb_true_intro. split.
    - rewrite forallb_forall in *. intros x Hx. now rewrite Hscs.
    - rewrite forallb_forall in *. intros x Hx. rewrite Hrules by assumption.
      apply orb_true_r. }
  assert (Hexp : _expand_background_and_scenarios
                   (option_list background ++ scenarios ++ rules)
                 = (default VNone background, scenarios ++ rules)).
  { destruct background as [b|]; simpl.
    - now rewrite (Hbg b eq_refl).
    - now apply expand_no_background. }
  rewrite Hexp.
  rewrite (takewhile_app_all (fun s => negb (is_Rule s)) scenarios rules).
  2:{ rewrite forallb_forall in *. intros x Hx. specialize (Hscs x Hx).
      now destruct x. }
  2:{ rewrite forallb_forall in *. intros x Hx. rewrite Hrules by assumption.
      reflexivity. }
  rewrite drop_app_length.
  set (bg := default VNone background).
  assert (Hset : forall rs,
            forallb is_Rule rs = true ->
            mapM_ (set_background bg) rs st
              = (Return (map (with_background bg) rs), st)).
  { intros rs Hrs. apply mapM__Return_Forall. apply Forall_forall.
    intros r Hr%list_elem_of_In. rewrite forallb_forall in Hrs.
    specialize (Hrs r Hr).
    destruct r; try discriminate; reflexivity. }
  destruct scenarios as [|first scenarios].
  - cbn [default_rule_of app]. unfold mbind, M_bind, mret, M_ret.
    now rewrite Hset.
  - assert (Hfirst : is_Scenario first = true)
      by (simpl in Hscs; now apply andb_prop in Hscs).
    unfold set_rule_all. rewrite Hscs.
    assert (Hp : attr_path first st = (Return (path_of first), st))
      by (destruct first; try discriminate; reflexivity).
    assert (Hl : attr_line first st = (Return (line_of first), st))
      by (destruct first; try discriminate; reflexivity).
    unfold mbind at 1 2 3, M_bind at 1 2 3. rewrite Hp.
    unfold mbind at 1, M_bind at 1. rewrite Hl.
    unfold mbind, M_bind, mret, M_ret.
    cbn [default_rule_of app]. fold (@mret M _).
    now rewrite (Hset (_ :: rules)).
Qed.

Lemma mapM__set_background bg l :
  forall st l' st',
    mapM_ (set_background bg) l st = (Return l', st') ->
    l' = map (with_background bg) l /\ st' = st.
Proof.
  induction l as [|r l IH]; intros st l' st'; cbn [mapM_ map].
  - intros [= <- <-]. auto.
  - unfold mbind at 1, M_bind at 1.
    destruct (set_background bg r st) as [[r'|e] st1] eqn:E1; [|discriminate].
    assert (r' = with_background bg r /\ st1 = st) as [-> ->].
    { destruct r; simpl in E1; try discriminate; injection E1 as <- <-;
        auto. }
    unfold mbind at 1, M_bind at 1.
    destruct (mapM_ (set_background bg) l st) as [[l0|e] st2] eqn:E2;
      [|discriminate].
    destruct (IH _ _ _ E2) as [-> ->]. intros [= <- <-]. auto.
Qed.

(** When [feature_body] returns, what it returns is made of the split of
    its children: the background of the split, and the scenarios of the
    split, those before the first Rule inside a DefaultRule and the rest
    after it. *)
Lemma feature_body_Return description children st v st' :
  feature_body (description :: children) st = (Return v, st') ->
  let background := fst (_expand_background_and_scenarios children) in
  let scenarios := snd (_expand_background_and_scenarios children) in
  let leading := takewhile (fun s => negb (is_Rule s)) scenarios in
  st' = st /\
  v = VTuple [description; background;
              VList (map (with_background background)
                         (default_rule_of leading
                            ++ skipn (length leading) scenarios))].
Proof.
  unfold feature_body.
  destruct (_expand_background_and_scenarios children) as [bg scs].
  cbn [fst snd]. cbv zeta.
  set (leading := takewhile (fun s => negb (is_Rule s)) scs).
  set (explicit := skipn (length leading) scs).
  destruct leading as [|first leading].
  - unfold mbind, M_bind. cbn [mret M_ret default_rule_of app].
    destruct (mapM_ (set_background bg) explicit st) as [[l'|e] st1] eqn:E;
      [|discriminate].
    apply mapM__set_background in E as [-> ->]. intros [= <- <-]. auto.
  - unfold mbind at 1 2, M_bind at 1 2.
    destruct (forallb is_Scenario (first :: leading)) eqn:Hscs.
    + assert (Hfirst : is_Scenario first = true)
        by (simpl in Hscs; now apply andb_prop in Hscs).
      assert (Hp : attr_path first st = (Return (path_of first), st))
        by (destruct first; try discriminate; reflexivity).
      assert (Hl : attr_line first st = (Return (line_of first), st))
        by (destruct first; try discriminate; reflexivity).
      unfold mbind at 1, M_bind at 1. rewrite Hp.
      unfold mbind at 1, M_bind at 1. rewrite Hl.
      unfold set_rule_all. rewrite Hscs.
      unfold mbind, M_bind, mret, M_ret. fold (@mret M _).
      cbn [default_rule_of app].
      match goal with |- context [mapM_ ?f ?l st] =>
        destruct (mapM_ f l st) as [[l'|e] st1] eqn:E; [|discriminate]
      end.
      apply mapM__set_background in E as [-> ->]. intros [= <- <-]. auto.
    + intros H. exfalso. revert H.
      unfold set_rule_all. rewrite Hscs.
      unfold mbind, M_bind, py_raise, raise.
      destruct (attr_path first st) as [[p|e] st1]; [|discriminate].
      destruct (attr_line first st1) as [[l|e] st2]; discriminate.
Qed.

(** C9: the split of the scenario-like children of a feature body.  No
    child: no background, no scenario.  One Background: it is the
    background, no scenario.  One scenario: no background, that scenario.
    A Background first: it is taken off as the background, the rest are
    the scenarios.  Otherwise: no background, all children are scenarios.
    [feature_body] hands on this split: whenever it returns, the
    background it returns is the one of the split and its rules hold the
    scenarios of the split, those before the first Rule in a DefaultRule
    and the Rules after it; and it does return when the children are a
    Background or none, then scenarios, then Rules. *)
Theorem expand_background_and_scenarios_cases
    (b s x : value) (rest : list value) :
  is_Background b = true ->
  is_Scenario s = true ->
  is_Background x = false ->
  _expand_background_and_scenarios [] = (VNone, []) /\
  _expand_background_and_scenarios [b] = (b, []) /\
  _expand_background_and_scenarios [s] = (VNone, [s]) /\
  _expand_background_and_scenarios (b :: rest) = (b, rest) /\
  _expand_background_and_scenarios (x :: rest) = (VNone, x :: rest) /\
  (forall description children st v st',
     feature_body (description :: children) st = (Return v, st') ->
     let background := fst (_expand_background_and_scenarios children) in
     let scenarios := snd (_expand_background_and_scenarios children) in
     let leading := takewhile (fun s => negb (is_Rule s)) scenarios in
     st' = st /\
     v = VTuple [description; background;
                 VList (map (with_background background)
                            (default_rule_of leading
                               ++ skipn (length leading) scenarios))]) /\
  (forall description st (scenarios rules : list value),
     forallb is_Scenario scenarios = true ->
     forallb is_Rule rules = true ->
     feature_body (description :: b :: scenarios ++ rules) st
       = (Return (VTuple [description; b;
                          VList (map (with_background b)
                                     (default_rule_of scenarios ++ rules))]),
          st) /\
     feature_body (description :: scenarios ++ rules) st
       = (Return (VTuple [description; VNone;
                          VList (map (with_background VNone)
                                     (default_rule_of scenarios ++ rules))]),
          st)).
Proof.
  intros Hb Hs Hx. unfold _expand_background_and_scenarios at 1 2 3 4 5.
  rewrite Hb, Hx.
  assert (is_Background s = false) as -> by (destruct s; done).
  do 5 (split; [reflexivity|]). split.
  - intros description children st v st' H.
    exact (feature_body_Return description children st v st' H).
  - intros description st scenarios rules Hscs Hrules. split.
    + apply (feature_body_well_formed st description (Some b) scenarios
               rules);
        [intros ? [= <-]; exact Hb | assumption | assumption].
    + apply (feature_body_well_formed st description None scenarios rules);
        [intros ? [=] | assumption | assumption].
Qed.

Lemma expand_background_and_scenarios_cases_witness :
  let b := VBackground VNone Sample.path 0 [] in
  let s := VScenario 1 (VToken (py "S") 2) [] Sample.path 2 [] in
  let x := VScenarioLoop 2 (VToken (py "L") 4) [] Sample.path 4 [] (VInt 3) in
  let r := VRule (VToken (py "R") 6) Sample.path 6 [] VNone in
  _expand_background_and_scenarios [b] = (b, []) /\
  _expand_background_and_scenarios [s] = (VNone, [s]) /\
  _expand_background_and_scenarios [b; s; x] = (b, [s; x]) /\
  _expand_background_and_scenarios [x; s] = (VNone, [x; s]) /\
  feature_body ([VList []; b] ++ [s; x] ++ [r]) Sample.used
    = (Return
         (VTuple [VList []; b;
                  VList [VDefaultRule Sample.path 2 [s; x] b;
                         VRule (VToken (py "R") 6) Sample.path 6 [] b]]),
       Sample.used).
Proof.
  intros b s x r.
  destruct (expand_background_and_scenarios_cases b s x [s; x]
              eq_refl eq_refl eq_refl) as (_ & H1 & H2 & H3 & _ & _ & H5).
  destruct (expand_background_and_scenarios_cases b s x [s]
              eq_refl eq_refl eq_refl) as (_ & _ & _ & _ & H4 & _).
  destruct (H5 (VList []) Sample.used [s; x] [r] eq_refl eq_refl)
    as [H6 _].
  repeat split; assumption.
Defined.

(** ** Tables *)

Lemma distinct_lengths_gt_1 (lens : list nat) :
  (1 < distinct_lengths lens)%nat <->
  exists a b, a ∈ lens /\ b ∈ lens /\ a <> b.
Proof.
  unfold distinct_lengths. set (X := list_to_set lens : gset nat).
  assert (HX : forall a, a ∈ X <-> a ∈ lens)
    by (intros a; apply elem_of_list_to_set).
  split.
  - intros Hsize.
    destruct (size_pos_elem_of X) as [a Ha]; [lia|].
    destruct (size_pos_elem_of (X ∖ {[a]})) as [b Hb].
    { rewrite size_difference by now apply singleton_subseteq_l.
      rewrite size_singleton. lia. }
    apply elem_of_difference in Hb as [Hb Hne].
    rewrite elem_of_singleton in Hne.
    exists a, b. repeat split; try now apply HX. congruence.
  - intros (a & b & Ha%HX & Hb%HX & Hab).
    assert (Hsub : ({[a]} ∪ {[b]} : gset nat) ⊆ X).
    { apply union_subseteq. split; now apply singleton_subseteq_l. }
    apply subseteq_size in Hsub.
    rewrite size_union in Hsub by now apply disjoint_singleton_l, not_elem_of_singleton.
    rewrite !size_singleton in Hsub. lia.
Qed.

Lemma mapM__py_len_lists (rows : list (list value)) st :
  mapM_ py_len (map VList rows) st = (Return (map length rows), st).
Proof.
  induction rows as [|r rows IH]; [reflexivity|].
  cbn [map mapM_]. unfold mbind, M_bind at 1. cbn [py_len].
  unfold mret at 1, M_ret at 1. unfold M_bind at 1. now rewrite IH.
Qed.

Lemma uneven_rows {A} (rows : list (list A)) :
  (1 < distinct_lengths (map length rows))%nat <->
  exists r1 r2, r1 ∈ rows /\ r2 ∈ rows /\ length r1 <> length r2.
Proof.
  rewrite distinct_lengths_gt_1. split.
  - intros (a & b & Ha & Hb & Hab).
    apply list_elem_of_fmap in Ha as (r1 & -> & H1).
    apply list_elem_of_fmap in Hb as (r2 & -> & H2). eauto 6.
  - intros (r1 & r2 & H1 & H2 & Hne).
    exists (length r1), (length r2).
    repeat split; auto; apply list_elem_of_fmap; eauto.
Qed.

Lemma even_rows {A} (rows : list (list A)) n :
  Forall (fun r => length r = n) rows ->
  (1 <? distinct_lengths (map length rows))%nat = false.
Proof.
  intros Hall. apply Nat.ltb_ge, Nat.nlt_ge. rewrite uneven_rows.
  intros (r1 & r2 & H1 & H2 & Hne). rewrite Forall_forall in Hall.
  apply Hne. rewrite (Hall r1), (Hall r2); auto; now apply list_elem_of_In.
Qed.

Lemma dict_of_pairs_str_keys d (ks : list pystr) (vs : list value) st :
  dict_of_pairs d (combine (map VStr ks) vs) st
    = (Return (fold_left (fun d kv => dict_set d (fst kv) (snd kv))
                         (combine (map VStr ks) vs) d), st).
Proof.
  revert d vs. induction ks as [|k ks IH]; intros d [|v vs]; try reflexivity.
  cbn [map combine dict_of_pairs fold_left]. unfold mbind, M_bind at 1.
  cbn [check_key]. unfold mret at 1, M_ret at 1. apply IH.
Qed.

Lemma dict_zip_cells (header row : list pystr) st :
  dict_zip (row_of_cells header) (row_of_cells row) st
    = (Return (example_of header row), st).
Proof.
  unfold dict_zip, row_of_cells. cbn [py_iter].
  unfold mbind, M_bind at 1. unfold mret at 1, M_ret at 1.
  unfold M_bind at 1. unfold mret at 1, M_ret at 1.
  unfold M_bind at 1. now rewrite dict_of_pairs_str_keys.
Qed.

Lemma mapM__dict_zip_cells (header : list pystr) (data : list (list pystr)) st :
  mapM_ (dict_zip (row_of_cells header)) (map row_of_cells data) st
    = (Return (map (example_of header) data), st).
Proof.
  induction data as [|r data IH]; [reflexivity|].
  cbn [map mapM_]. unfold mbind, M_bind at 1. rewrite dict_zip_cells.
  unfold M_bind at 1. now rewrite IH.
Qed.

Lemma mapM__py_len_cells (rows : list (list pystr)) st :
  mapM_ py_len (map row_of_cells rows) st = (Return (map length rows), st).
Proof.
  replace (map row_of_cells rows) with (map VList (map (map VStr) rows))
    by (rewrite map_map; reflexivity).
  rewrite mapM__py_len_lists. rewrite map_map.
  do 2 f_equal. apply map_ext. intros r. apply length_map.
Qed.

(** C6: a data table, and an examples table with its header, is refused
    with its own error exactly when two of its rows differ in length; when
    every row has the same length the data table is returned as it is, and
    the examples are returned row by row, each zipped with the header. *)
Theorem table_cell_counts
    (rows : list (list value)) (header : list pystr)
    (data : list (list pystr)) (n : nat) (st : state) :
  (fst (step_data_table (map VList rows) st)
     = Raise RadishStepDataTableInconsistentCellCount
   <-> exists r1 r2, r1 ∈ rows /\ r2 ∈ rows /\ length r1 <> length r2) /\
  (Forall (fun r => length r = n) rows ->
   step_data_table (map VList rows) st
     = (Return (VList (map VList rows)), st)) /\
  (fst (examples (map row_of_cells (header :: data)) st)
     = Raise RadishScenarioOutlineExamplesInconsistentCellCount
   <-> exists r1 r2,
         r1 ∈ header :: data /\ r2 ∈ header :: data /\
         length r1 <> length r2) /\
  (Forall (fun r => length r = length header) data ->
   examples (map row_of_cells (header :: data)) st
     = (Return (VList (map (example_of header) data)), st)).
Proof.
  assert (Hdata : step_data_table (map VList rows) st
            = if (1 <? distinct_lengths (map length rows))%nat
              then (Raise RadishStepDataTableInconsistentCellCount, st)
              else (Return (VList (map VList rows)), st)).
  { unfold step_data_table, mbind, M_bind.
    rewrite mapM__py_len_lists.
    now destruct (1 <? distinct_lengths (map length rows))%nat. }
  assert (Hex : examples (map row_of_cells (header :: data)) st
            = if (1 <? distinct_lengths (map length (header :: data)))%nat
              then (Raise RadishScenarioOutlineExamplesInconsistentCellCount,
                    st)
              else (Return (VList (map (example_of header) data)), st)).
  { unfold examples. unfold mbind, M_bind at 1.
    rewrite mapM__py_len_cells.
    destruct (1 <? distinct_lengths (map length (header :: data)))%nat;
      [reflexivity|].
    cbn [map]. unfold mbind, M_bind. now rewrite mapM__dict_zip_cells. }
  assert (Hif : forall (b : bool) e (v : value),
            fst (if b then (Raise e, st) else (Return v, st)) = Raise e
            <-> b = true)
    by (intros [] e v; simpl; split; congruence).
  split; [|split; [|split]].
  - now rewrite Hdata, Hif, Nat.ltb_lt, uneven_rows.
  - intros Hall. now rewrite Hdata, (even_rows rows n).
  - now rewrite Hex, Hif, Nat.ltb_lt, uneven_rows.
  - intros Hall. rewrite Hex.
    now rewrite (even_rows (header :: data) (length header))
      by (constructor; auto).
Qed.

Lemma table_cell_counts_witness :
  let rows := [[VStr (py "a"); VStr (py "b")]; [VStr (py "c"); VStr (py "d")]] in
  let header := [py "name"; py "age"] in
  let data := [[py "Alice"; py "30"]; [py "Bob"; py "40"]] in
  let st := prepare Sample.path (py "") 1 __init__ in
  step_data_table (map VList rows) st = (Return (VList (map VList rows)), st) /\
  examples (map row_of_cells (header :: data)) st
    = (Return
         (VList [VDict [(VStr (py "name"), VStr (py "Alice"));
                        (VStr (py "age"), VStr (py "30"))];
                 VDict [(VStr (py "name"), VStr (py "Bob"));
                        (VStr (py "age"), VStr (py "40"))]]), st).
Proof.
  intros rows header data st.
  destruct (table_cell_counts rows header data 2 st) as (_ & H1 & _ & H2).
  split.
  - apply H1. repeat constructor.
  - apply H2. repeat constructor.
Defined.

(** ** Reductions that do not use the attributes *)

Lemma stateless_mret {A} (a : A) : stateless (mret a).
Proof. now exists (Return a). Qed.

Lemma stateless_raise {A} e : stateless (@raise A e).
Proof. now exists (Raise e). Qed.

Lemma stateless_bind {A B} (m : M A) (k : A -> M B) :
  stateless m -> (forall a, stateless (k a)) -> stateless (m ≫= k).
Proof.
  intros [[a|e] Hm] Hk.
  - destruct (Hk a) as [o Ho]. exists o. intros st.
    unfold mbind, M_bind. now rewrite Hm.
  - exists (Raise e). intros st. unfold mbind, M_bind. now rewrite Hm.
Qed.

Lemma stateless_mapM_ {A B} (f : A -> M B) l :
  (forall a, stateless (f a)) -> stateless (mapM_ f l).
Proof.
  intros Hf. induction l as [|a l IH]; simpl.
  - apply stateless_mret.
  - apply stateless_bind; [apply Hf|]. intros b.
    apply stateless_bind; [apply IH|]. intros bs. apply stateless_mret.
Qed.

Lemma stateless_py_len v : stateless (py_len v).
Proof.
  destruct v; first [apply stateless_mret | apply stateless_raise].
Qed.

Lemma stateless_py_iter v : stateless (py_iter v).
Proof.
  destruct v; first [apply stateless_mret | apply stateless_raise].
Qed.

Lemma stateless_dict_of_pairs kvs d : stateless (dict_of_pairs d kvs).
Proof.
  revert d. induction kvs as [|[k v] kvs IH]; intros d; simpl.
  - apply stateless_mret.
  - apply stateless_bind; [|intros _; apply IH].
    destruct k; first [apply stateless_mret | apply stateless_raise].
Qed.

Lemma stateless_dict_zip header row : stateless (dict_zip header row).
Proof.
  unfold dict_zip.
  apply stateless_bind; [apply stateless_py_iter|]. intros ks.
  apply stateless_bind; [apply stateless_py_iter|]. intros vs.
  apply stateless_bind; [apply stateless_dict_of_pairs|]. intros d.
  apply stateless_mret.
Qed.

Lemma stateless_step_data_table subtree : stateless (step_data_table subtree).
Proof.
  unfold step_data_table.
  apply stateless_bind; [apply stateless_mapM_, stateless_py_len|].
  intros lens. destruct (_ <? _)%nat;
    [apply stateless_raise | apply stateless_mret].
Qed.

Lemma stateless_examples subtree : stateless (examples subtree).
Proof.
  unfold examples.
  apply stateless_bind; [apply stateless_mapM_, stateless_py_len|].
  intros lens. destruct (_ <? _)%nat; [apply stateless_raise|].
  destruct subtree as [|header rows]; [apply stateless_raise|].
  apply stateless_bind; [apply stateless_mapM_, stateless_dict_zip|].
  intros table. apply stateless_mret.
Qed.

Lemma unpack2_cases v :
  (exists a b, forall st, unpack2 v st = (Return (a, b), st)) \/
  (exists x, forall st, unpack2 v st = (Raise (PyException x), st)).
Proof.
  assert (H : forall items : list value,
            (exists a b, items = [a; b]) \/
            match items with [_; _] => False | _ => True end).
  { intros [|a [|b [|c items]]]; eauto. }
  unfold unpack2.
  destruct v; try (right; exists TypeError; reflexivity);
    cbn [py_iter]; unfold mbind, M_bind, mret, M_ret;
    match goal with |- context [match ?l with _ => _ end] =>
      destruct (H l) as [(a & b & ->)|Hl];
        [left; eauto
        |right; exists ValueError; intros st';
         destruct l as [|? [|? [|? ?]]]; try reflexivity; destruct Hl]
    end.
Qed.

Lemma stateless_fst {A} (m : M A) st st' :
  stateless m -> fst (m st) = fst (m st').
Proof. intros [o Ho]. now rewrite !Ho. Qed.

(** When [step] refuses a step, the keyword context is unset and the
    keyword is not a first-level one. *)
Lemma step_refused_inv st keyword line text arguments :
  fst (step [VToken keyword line; text; arguments] st)
    = Raise RadishFirstStepMustUseFirstLevelKeyword ->
  step_keyword_ctx st = None /\
  (Py.strip keyword ∉ FIRST_LEVEL_STEP_KEYWORDS) /\
  exists doc_string data_table,
    forall st', unpack2 arguments st' = (Return (doc_string, data_table), st').
Proof.
  unfold step. unfold mbind at 1, M_bind at 1.
  destruct (unpack2_cases arguments) as [(ds & dt & Hu)|(x & Hu)];
    rewrite Hu; [|simpl; congruence].
  run. destruct (step_keyword_ctx st) as [ctx|] eqn:Hctx.
  - intros H. exfalso. revert H.
    repeat (case_bool_decide; simpl);
      destruct (featurefile_path _); simpl; try discriminate;
      destruct (step_id _); simpl; discriminate.
  - case_bool_decide as Hkw; simpl.
    + destruct (featurefile_path st); simpl; try discriminate.
      destruct (step_id st); simpl; discriminate.
    + intros _. repeat split; eauto.
Qed.

(** ** The counters and the keyword context inside a file *)

Ltac split_match :=
  repeat match goal with
         | |- context [match ?x with _ => _ end] =>
             lazymatch x with
             | context [match _ with _ => _ end] => fail
             | _ => destruct x; simpl
             end
         end.

(** A Background leaves every attribute as it is: neither the step
    counter nor the keyword context is reset. *)
Lemma background_keeps_state subtree st : snd (background subtree st) = st.
Proof.
  unfold background.
  destruct subtree as [|v rest]; [|destruct (is_Step v)];
    run; destruct (featurefile_path st); simpl; trivial.
  destruct (truthy v); [destruct v|]; reflexivity.
Qed.

Lemma scenario_outline_keeps_ctx subtree st :
  step_keyword_ctx (snd (scenario_outline subtree st)) = step_keyword_ctx st.
Proof.
  unfold scenario_outline. run. split_match; trivial.
Qed.

Lemma scenario_loop_keeps_ctx subtree st :
  step_keyword_ctx (snd (scenario_loop subtree st)) = step_keyword_ctx st.
Proof.
  unfold scenario_loop. run. split_match; trivial.
Qed.

(** A Scenario that is built hands over a step counter of 1 and no
    keyword context. *)
Lemma scenario_Return subtree st v st' :
  scenario subtree st = (Return v, st') ->
  step_id st' = Some 1 /\ step_keyword_ctx st' = None /\
  exists id, scenario_id st = Some id /\ scenario_id st' = Some (id + 1).
Proof.
  unfold scenario. destruct (skipn _ subtree) as [|d steps];
    [discriminate|].
  run. destruct (featurefile_path st); simpl; [|discriminate].
  destruct (scenario_id st) as [id|] eqn:E.
  - split_match; try discriminate; intros [= <- <-]; simpl; eauto.
  - split_match; discriminate.
Qed.

(** A step that is built takes the current step id, and the counter moves
    on by one; its context keyword is the one the transformer holds
    afterwards. *)
Lemma step_Return subtree st v st' :
  step subtree st = (Return v, st') ->
  exists id ctx,
    step_id st = Some id /\ step_id_of v = Some id /\
    step_id st' = Some (id + 1) /\
    keyword_ctx_of v = Some ctx /\ step_keyword_ctx st' = Some ctx.
Proof.
  unfold step.
  destruct subtree as [|keyword [|text [|arguments [|? ?]]]];
    try discriminate.
  unfold mbind at 1, M_bind at 1.
  destruct (unpack2_cases arguments) as [(ds & dt & Hu)|(x & Hu)];
    rewrite Hu; [|discriminate].
  destruct keyword; run; try discriminate.
  destruct (step_keyword_ctx st) as [ctx|] eqn:Hctx;
    repeat (case_bool_decide; simpl); try discriminate;
    destruct (featurefile_path st); simpl; try discriminate;
    destruct (step_id st) as [id|]; simpl; try discriminate;
    intros [= <- <-]; simpl; eauto 10.
Qed.

(** Inside a block: a first-level keyword becomes the context keyword, any
    other keyword takes the context keyword in force. *)
Lemma step_keyword_ctx_rule st keyword line text arguments v st' :
  step [VToken keyword line; text; arguments] st = (Return v, st') ->
  keyword_ctx_of v
    = if bool_decide (Py.strip keyword ∈ FIRST_LEVEL_STEP_KEYWORDS)
      then Some (Py.strip keyword)
      else step_keyword_ctx st.
Proof.
  unfold step. unfold mbind at 1, M_bind at 1.
  destruct (unpack2_cases arguments) as [(ds & dt & Hu)|(x & Hu)];
    rewrite Hu; [|discriminate].
  run.
  destruct (step_keyword_ctx st) as [ctx|] eqn:Hctx;
    repeat (case_bool_decide; simpl); try discriminate;
    destruct (featurefile_path st); simpl; try discriminate;
    destruct (step_id st) as [id|]; simpl; try discriminate;
    intros [= <- <-]; simpl; congruence.
Qed.

(** Steps built one after the other, with no other reduction between
    them, have the ids n, n + 1, ... from the value n of the counter. *)
Lemma step_ids_dense subtrees st vs st' n :
  step_id st = Some n ->
  mapM_ step subtrees st = (Return vs, st') ->
  map step_id_of vs = map Some (seqZ n (Z.of_nat (length subtrees))) /\
  step_id st' = Some (n + Z.of_nat (length subtrees)).
Proof.
  revert st vs n. induction subtrees as [|t ts IH]; intros st vs n Hn.
  - intros [= <- <-]. rewrite Z.add_0_r. auto.
  - cbn [mapM_]. unfold mbind at 1, M_bind at 1.
    destruct (step t st) as [[v|e] st1] eqn:E1; [|discriminate].
    apply step_Return in E1 as (id & ctx & Hid & Hv & Hst1 & _).
    unfold mbind at 1, M_bind at 1.
    destruct (mapM_ step ts st1) as [[vs'|e] st2] eqn:E2; [|discriminate].
    intros [= <- <-]. assert (id = n) as -> by congruence.
    destruct (IH _ _ _ Hst1 E2) as [Hids Hst2].
    rewrite Hst2. split; [|f_equal; cbn [length]; lia].
    cbn [map length]. rewrite Nat2Z.inj_succ.
    rewrite seqZ_cons by lia. cbn [map]. rewrite Hv, Hids.
    do 3 f_equal. lia.
Qed.

(** ** The errors of the builder *)

(** C7, as stated: an error would let its reader find the path of the file
    and the line of the offending keyword.  No pair of accessors does: the
    step And x on line 3 of a.feature and the step And x on line 7 of
    b.feature, each the first of its file, are refused with one and the
    same error. *)
Lemma errors_do_not_carry_location :
  ~ exists (path_of : error -> pystr) (line_of : error -> Z),
      forall st keyword line text arguments e path,
        featurefile_path st = Some path ->
        fst (step [VToken keyword line; text; arguments] st) = Raise e ->
        path_of e = path /\ line_of e = line.
Proof.
  intros (path_of & line_of & H).
  destruct (H (prepare (py "a.feature") (py "") 1 __init__) (py "And ") 3
              (VToken (py "x") 3) (VTuple [VNone; VNone])
              RadishFirstStepMustUseFirstLevelKeyword (py "a.feature"))
    as [_ H3]; [reflexivity | vm_compute; reflexivity |].
  destruct (H (prepare (py "b.feature") (py "") 1 __init__) (py "And ") 7
              (VToken (py "x") 7) (VTuple [VNone; VNone])
              RadishFirstStepMustUseFirstLevelKeyword (py "b.feature"))
    as [_ H7]; [reflexivity | vm_compute; reflexivity |].
  congruence.
Qed.

Lemma raises_mret {A} (Q : error -> Prop) (a : A) : raises Q (mret a).
Proof. intros st e st' [=]. Qed.

Lemma raises_raise {A} (Q : error -> Prop) e : Q e -> raises Q (@raise A e).
Proof. intros H st e' st' [= <- _]. exact H. Qed.

Lemma raises_bind {A B} (Q : error -> Prop) (m : M A) (k : A -> M B) :
  raises Q m -> (forall a, raises Q (k a)) -> raises Q (m ≫= k).
Proof.
  intros Hm Hk st e st'. unfold mbind, M_bind.
  destruct (m st) as [[a|e0] st1] eqn:E.
  - apply Hk.
  - intros [= <- _]. eapply Hm, E.
Qed.

Lemma raises_mapM_ {A B} (Q : error -> Prop) (f : A -> M B) l :
  (forall a, raises Q (f a)) -> raises Q (mapM_ f l).
Proof.
  intros Hf. induction l as [|a l IH]; simpl; [apply raises_mret|].
  apply raises_bind; [apply Hf|]. intros b.
  apply raises_bind; [apply IH|]. intros bs. apply raises_mret.
Qed.

Ltac raises_body :=
  repeat match goal with
         | |- raises _ (_ ≫= _) => apply raises_bind; [|intros]
         | |- raises _ (match ?x with _ => _ end) => destruct x
         | |- raises _ (mret _) => apply raises_mret
         | |- raises _ (raise _) => apply raises_raise; exact I
         | |- raises _ (py_raise _) => apply raises_raise; exact I
         end.

Lemma dict_of_pairs_no_parser_error kvs :
  forall d, raises no_parser_error (dict_of_pairs d kvs).
Proof.
  induction kvs as [|[k v] kvs IH]; intros d; simpl; [apply raises_mret|].
  apply raises_bind; [unfold check_key; raises_body|]. intros _. apply IH.
Qed.

Lemma dict_zip_no_parser_error header row :
  raises no_parser_error (dict_zip header row).
Proof.
  unfold dict_zip.
  apply raises_bind; [unfold py_iter; raises_body|]. intros ks.
  apply raises_bind; [unfold py_iter; raises_body|]. intros vs.
  apply raises_bind; [apply dict_of_pairs_no_parser_error|]. intros d.
  apply raises_mret.
Qed.

(** A data table and an examples table of rows that are lists raise their
    error exactly when the lengths of the rows are not all the same. *)
Lemma step_data_table_uneven (rows : list (list value)) st :
  fst (step_data_table (map VList rows) st)
    = Raise RadishStepDataTableInconsistentCellCount
  <-> (1 <? distinct_lengths (map length rows))%nat = true.
Proof.
  unfold step_data_table, mbind, M_bind. rewrite mapM__py_len_lists.
  destruct (1 <? distinct_lengths (map length rows))%nat; simpl;
    split; congruence.
Qed.

Lemma examples_uneven (rows : list (list value)) st :
  fst (examples (map VList rows) st)
    = Raise RadishScenarioOutlineExamplesInconsistentCellCount
  <-> (1 <? distinct_lengths (map length rows))%nat = true.
Proof.
  unfold examples. unfold mbind at 1, M_bind at 1.
  rewrite mapM__py_len_lists.
  destruct (1 <? distinct_lengths (map length rows))%nat; simpl;
    [split; congruence|].
  split; [|discriminate]. intros H. exfalso.
  destruct (map VList rows) as [|header rest]; [discriminate|].
  assert (R : raises no_parser_error
                (mapM_ (dict_zip header) rest
                   ≫= fun table => mret (VList table))).
  { apply raises_bind; [|intros; apply raises_mret].
    apply raises_mapM_. intros row. apply dict_zip_no_parser_error. }
  match type of H with fst (?m st) = _ =>
    destruct (m st) as [o st1] eqn:E
  end.
  simpl in H. subst o. exact (R _ _ _ E).
Qed.

(** C7, amended: the three errors of the builder are raised without
    arguments; which error is raised depends neither on the file path nor
    on a source line, so the error carries neither.  What a Data Table or
    Examples Table reduction raises does not depend on the attributes of
    the transformer, the path among them, and whether it raises its error
    depends on the numbers of cells of the rows alone, not on the cells or
    on their lines; a step that is refused with
    [RadishFirstStepMustUseFirstLevelKeyword] is refused with the same
    error on any other line and in any other file, as long as the keyword
    context is the same. *)
Theorem errors_tell_the_kind_only
    (st st' : state) (subtree : list value) (rows rows' : list (list value))
    (keyword : pystr) (line line' : Z) (text arguments : value) :
  fst (step_data_table subtree st') = fst (step_data_table subtree st) /\
  fst (examples subtree st') = fst (examples subtree st) /\
  (map length rows' = map length rows ->
   fst (step_data_table (map VList rows) st)
     = Raise RadishStepDataTableInconsistentCellCount ->
   fst (step_data_table (map VList rows') st')
     = Raise RadishStepDataTableInconsistentCellCount) /\
  (map length rows' = map length rows ->
   fst (examples (map VList rows) st)
     = Raise RadishScenarioOutlineExamplesInconsistentCellCount ->
   fst (examples (map VList rows') st')
     = Raise RadishScenarioOutlineExamplesInconsistentCellCount) /\
  (step_keyword_ctx st' = step_keyword_ctx st ->
   fst (step [VToken keyword line; text; arguments] st)
     = Raise RadishFirstStepMustUseFirstLevelKeyword ->
   fst (step [VToken keyword line'; text; arguments] st')
     = Raise RadishFirstStepMustUseFirstLevelKeyword).
Proof.
  split; [apply stateless_fst, stateless_step_data_table|].
  split; [apply stateless_fst, stateless_examples|].
  split; [|split].
  - intros Hlen. rewrite !step_data_table_uneven. now rewrite Hlen.
  - intros Hlen. rewrite !examples_uneven. now rewrite Hlen.
  - intros Hctx (Hnone & Hkw & ds & dt & Hu)%step_refused_inv.
    unfold step. unfold mbind at 1, M_bind at 1. rewrite Hu. run.
    rewrite Hctx, Hnone. now rewrite bool_decide_eq_false_2.
Qed.

Lemma errors_tell_the_kind_only_witness :
  fst (step_data_table
         (map VList [[VToken (py "x") 9]; [VStr (py "y"); VStr (py "z")]])
         (prepare (py "b.feature") (py "") 1 __init__))
    = Raise RadishStepDataTableInconsistentCellCount /\
  fst (examples
         (map VList [[VToken (py "x") 9]; [VStr (py "y"); VStr (py "z")]])
         (prepare (py "b.feature") (py "") 1 __init__))
    = Raise RadishScenarioOutlineExamplesInconsistentCellCount /\
  fst (step [VToken (py "And ") 7; VToken (py "x") 7; VTuple [VNone; VNone]]
            (prepare (py "b.feature") (py "") 1 __init__))
    = Raise RadishFirstStepMustUseFirstLevelKeyword.
Proof.
  destruct (errors_tell_the_kind_only
              (prepare (py "a.feature") (py "") 1 __init__)
              (prepare (py "b.feature") (py "") 1 __init__)
              []
              [[VStr (py "a")]; [VToken (py "b") 3; VToken (py "c") 3]]
              [[VToken (py "x") 9]; [VStr (py "y"); VStr (py "z")]]
              (py "And ") 3 7 (VToken (py "x") 7) (VTuple [VNone; VNone]))
    as (_ & _ & H1 & H2 & H3).
  split; [|split].
  - apply H1; [reflexivity | vm_compute; reflexivity].
  - apply H2; [reflexivity | vm_compute; reflexivity].
  - apply H3; [reflexivity | vm_compute; reflexivity].
Defined.

(** ** Doc strings *)

(** C8, as stated, fails on a line of blanks: of the three cached lines
    four spaces and a, six spaces, four spaces and b, the specification
    keeps two spaces on the second line, [step_doc_string] none. *)
Lemma doc_string_blank_line_emptied :
  let st := prepare Sample.path doc_string_source 1 __init__ in
  let subtree := [VToken (py "a") 1; VToken (py "") 2; VToken (py "b") 3] in
  featurefile_contents st
    = Some [py "    a" ++ LF; py "      " ++ LF; py "    b" ++ LF] /\
  step_doc_string subtree st
    = (Return (VStr (py "a" ++ LF ++ LF ++ py "b" ++ LF)), st) /\
  DocStringSpec.doc_string
      [py "    a" ++ LF; py "      " ++ LF; py "    b" ++ LF] 1 3
    = py "a" ++ LF ++ py "  " ++ LF ++ py "b" ++ LF /\
  fst (step_doc_string subtree st)
    <> Return (VStr (DocStringSpec.doc_string
                       [py "    a" ++ LF; py "      " ++ LF; py "    b" ++ LF]
                       1 3)).
Proof.
  repeat split; try (vm_compute; reflexivity).
  vm_compute. discriminate.
Qed.

Section Dedent.
Import Textwrap.

Lemma startswith_prefix s p : startswith s p = true <-> p `prefix_of` s.
Proof.
  revert s. induction p as [|c p IH]; intros [|d s]; simpl.
  - split; auto using prefix_nil.
  - split; auto using prefix_nil.
  - split; [discriminate|]. intros H%prefix_nil_inv. discriminate.
  - rewrite andb_true_iff, N.eqb_eq, IH. split.
    + intros [-> H]. now apply prefix_cons.
    + intros H. split;
        [eapply prefix_cons_inv_1 | eapply prefix_cons_inv_2]; eauto.
Qed.

(** When neither string starts with the other, the loop cuts the margin
    to the longest prefix the two share. *)
Lemma cut_at_mismatch_glb m i :
  startswith i m = false -> startswith m i = false ->
  cut_at_mismatch m i `prefix_of` m /\
  cut_at_mismatch m i `prefix_of` i /\
  forall w, w `prefix_of` m -> w `prefix_of` i ->
            w `prefix_of` cut_at_mismatch m i.
Proof.
  revert i. induction m as [|x m IH]; intros [|y i]; simpl;
    try discriminate.
  destruct (N.eqb_spec x y) as [->|Hxy].
  - rewrite N.eqb_refl. simpl. intros H1 H2.
    destruct (IH i H1 H2) as (Hm & Hi & Hglb).
    repeat split; try now apply prefix_cons.
    intros [|c w] Hwm Hwi; [apply prefix_nil|].
    assert (c = y) as -> by (eapply prefix_cons_inv_1; eauto).
    apply prefix_cons, Hglb; eapply prefix_cons_inv_2; eauto.
  - intros _ _. repeat split; try apply prefix_nil.
    intros [|c w] Hwm Hwi; [apply prefix_nil|].
    apply prefix_cons_inv_1 in Hwm, Hwi. congruence.
Qed.

Lemma margin_step_glb m i :
  exists r, margin_step (Some m) i = Some r /\
    r `prefix_of` m /\ r `prefix_of` i /\
    forall w, w `prefix_of` m -> w `prefix_of` i -> w `prefix_of` r.
Proof.
  unfold margin_step.
  destruct (startswith i m) eqn:E1.
  { apply startswith_prefix in E1. exists m. repeat split; auto. }
  destruct (startswith m i) eqn:E2.
  { apply startswith_prefix in E2. exists i. repeat split; auto. }
  exists (cut_at_mismatch m i). split; [reflexivity|].
  now apply cut_at_mismatch_glb.
Qed.

Lemma fold_margin_step_glb (L : list pystr) m :
  exists r, fold_left margin_step L (Some m) = Some r /\
    r `prefix_of` m /\
    (forall i, i ∈ L -> r `prefix_of` i) /\
    forall w, w `prefix_of` m -> (forall i, i ∈ L -> w `prefix_of` i) ->
              w `prefix_of` r.
Proof.
  revert m. induction L as [|i L IH]; intros m; cbn [fold_left].
  - exists m. repeat split; auto. intros i Hi. inversion Hi.
  - destruct (margin_step_glb m i) as (r1 & -> & Hm & Hi & Hglb).
    destruct (IH r1) as (r & -> & Hr1 & HL & Hglb').
    exists r. split; [reflexivity|]. split; [now transitivity r1|]. split.
    + intros j [->|Hj]%elem_of_cons; [now transitivity r1 | now apply HL].
    + intros w Hwm Hw. apply Hglb'.
      * apply Hglb; [assumption|]. apply Hw. left.
      * intros j Hj. apply Hw. now right.
Qed.

Lemma leading_blanks_prefix seg : leading_blanks seg `prefix_of` seg.
Proof.
  induction seg as [|c seg IH]; simpl; [apply prefix_nil|].
  destruct (is_blank c); [now apply prefix_cons | apply prefix_nil].
Qed.

Lemma leading_blanks_blank seg : forallb is_blank (leading_blanks seg) = true.
Proof.
  induction seg as [|c seg IH]; simpl; [reflexivity|].
  destruct (is_blank c) eqn:E; simpl; [now rewrite E|reflexivity].
Qed.

Lemma leading_blanks_greatest w seg :
  forallb is_blank w = true -> w `prefix_of` seg ->
  w `prefix_of` leading_blanks seg.
Proof.
  revert seg. induction w as [|c w IH]; intros seg Hw Hp;
    [apply prefix_nil|].
  destruct seg as [|d seg]; [now apply prefix_nil_inv in Hp|].
  simpl in Hw. apply andb_prop in Hw as [Hc Hw].
  assert (c = d) as -> by (eapply prefix_cons_inv_1; eauto).
  simpl. rewrite Hc. apply prefix_cons, IH; [assumption|].
  eapply prefix_cons_inv_2; eauto.
Qed.

Lemma prefix_blank (w m : pystr) :
  w `prefix_of` m -> forallb is_blank m = true -> forallb is_blank w = true.
Proof. intros [k ->]. rewrite forallb_app. now intros [? _]%andb_prop. Qed.

(** The indents the margin is computed from are the leading blanks of
    the lines that have another character. *)
Lemma elem_of_indents segs i :
  i ∈ indents (map blank_out segs) <->
  exists seg, seg ∈ segs /\ forallb is_blank seg = false /\
              i = leading_blanks seg.
Proof.
  unfold indents. rewrite list_elem_of_omap. split.
  - intros (seg' & (seg & -> & Hseg)%list_elem_of_fmap & Hi).
    unfold blank_out, indent_of in Hi.
    destruct (forallb is_blank seg) eqn:E; [discriminate|].
    rewrite E in Hi. injection Hi as <-. eauto.
  - intros (seg & Hseg & E & ->). exists seg. split.
    + apply list_elem_of_fmap. exists seg. split; [|assumption].
      unfold blank_out. now rewrite E.
    + unfold indent_of. now rewrite E.
Qed.
End Dedent.

Section DocString.
Import Textwrap.

Lemma margin_of_spec (segs : list pystr) :
  match margin_of (map blank_out segs) with
  | None => forall seg, seg ∈ segs -> forallb is_blank seg = true
  | Some m =>
      forallb is_blank m = true /\
      (forall seg, seg ∈ segs -> forallb is_blank seg = false ->
                   m `prefix_of` seg) /\
      (forall w, forallb is_blank w = true ->
                 (forall seg, seg ∈ segs -> forallb is_blank seg = false ->
                              w `prefix_of` seg) ->
                 w `prefix_of` m)
  end.
Proof.
  unfold margin_of.
  destruct (indents (map blank_out segs)) as [|i0 L] eqn:EL.
  - simpl. intros seg Hseg.
    destruct (forallb is_blank seg) eqn:E; [reflexivity|].
    assert (H : leading_blanks seg ∈ indents (map blank_out segs))
      by (apply elem_of_indents; eauto).
    rewrite EL in H. inversion H.
  - cbn [fold_left]. change (margin_step None i0) with (Some i0).
    destruct (fold_margin_step_glb L i0) as (r & -> & Hi0 & HL & Hglb).
    assert (Hin : forall i, i ∈ i0 :: L <->
              exists seg, seg ∈ segs /\ forallb is_blank seg = false /\
                          i = leading_blanks seg)
      by (intros i; rewrite <- EL; apply elem_of_indents).
    assert (Hr : forall i, i ∈ i0 :: L -> r `prefix_of` i)
      by (intros i [->|Hi]%elem_of_cons; auto).
    split; [|split].
    + destruct (proj1 (Hin i0)) as (seg & _ & _ & Hseg); [left|].
      apply (prefix_blank r i0); [assumption|].
      rewrite Hseg. apply leading_blanks_blank.
    + intros seg Hseg E. transitivity (leading_blanks seg).
      * apply Hr, Hin. eauto.
      * apply leading_blanks_prefix.
    + intros w Hw Hall.
      assert (Hwi : forall i, i ∈ i0 :: L -> w `prefix_of` i).
      { intros i (seg & Hseg & E & ->)%Hin.
        apply leading_blanks_greatest; auto. }
      apply Hglb; [apply Hwi; left|]. intros i Hi. apply Hwi. now right.
Qed.

(** [textwrap.dedent], line by line: there is a margin, the longest
    string of blanks every line with another character starts with; the
    lines of blanks are emptied and the others lose the margin. *)
Lemma dedent_lines (text : pystr) :
  exists margin,
    dedent text = join_nl (map (dedent_line margin) (split_nl text)) /\
    forallb is_blank margin = true /\
    (forall seg, seg ∈ split_nl text -> forallb is_blank seg = false ->
                 margin `prefix_of` seg) /\
    (forall w,
        forallb is_blank w = true ->
        (exists seg, seg ∈ split_nl text /\ forallb is_blank seg = false) ->
        (forall seg, seg ∈ split_nl text -> forallb is_blank seg = false ->
                     w `prefix_of` seg) ->
        w `prefix_of` margin).
Proof.
  unfold dedent. set (segs := split_nl text).
  pose proof (margin_of_spec segs) as Hspec.
  assert (Hnil : map blank_out segs = map (dedent_line []) segs).
  { apply map_ext. intros seg. unfold blank_out, dedent_line.
    now destruct (forallb is_blank seg). }
  destruct (margin_of (map blank_out segs)) as [[|c m]|].
  - exists []. rewrite Hnil. destruct Hspec as (_ & _ & Hglb).
    repeat split; auto using prefix_nil.
  - exists (c :: m). destruct Hspec as (Hblank & Hpre & Hglb).
    split; [|repeat split; auto].
    f_equal. rewrite map_map. apply map_ext_in. intros seg Hseg.
    unfold blank_out, dedent_line, remove_margin.
    destruct (forallb is_blank seg) eqn:E; [reflexivity|].
    assert (Hst : startswith seg (c :: m) = true).
    { apply startswith_prefix, Hpre; [|assumption].
      now apply list_elem_of_In. }
    now rewrite Hst.
  - exists []. rewrite Hnil. repeat split; auto using prefix_nil.
    intros w _ (seg & Hseg & E) _. rewrite (Hspec seg Hseg) in E.
    discriminate.
Qed.

Lemma slice_source_lines {A} (lines : list A) (start_line end_line : Z) :
  1 <= start_line <= end_line ->
  Py.slice lines (start_line - 1) end_line
    = firstn (Z.to_nat (end_line - start_line + 1))
             (skipn (Z.to_nat (start_line - 1)) lines).
Proof.
  intros H. unfold Py.slice, Py.slice_index.
  destruct (Z.ltb_spec (start_line - 1) 0) as [?|_]; [lia|].
  destruct (Z.ltb_spec end_line 0) as [?|_]; [lia|].
  destruct (Z_lt_le_dec (start_line - 1) (Z.of_nat (length lines)))
    as [Hlt|Hge].
  - rewrite (Z.min_l (start_line - 1)) by lia.
    destruct (Z_le_gt_dec end_line (Z.of_nat (length lines))) as [Hle|Hgt].
    + rewrite Z.min_l by lia. f_equal. lia.
    + rewrite Z.min_r by lia. rewrite Nat2Z.id.
      rewrite !firstn_all2; try reflexivity; rewrite length_skipn; lia.
  - rewrite !(skipn_all2 lines); [now rewrite !firstn_nil| lia |].
    rewrite Z.min_r by lia. rewrite Nat2Z.id. lia.
Qed.
End DocString.

(** C8, amended: the text of a doc string whose first token is on line
    [start_line] and whose last token is on line [end_line] is made of the
    cached lines [start_line] to [end_line], put one after the other and
    then read as the pieces that lie between two \n, any other character,
    a \r or another line break among them, being a character of its piece
    like any other: every piece of spaces and tabs only is emptied, and
    every other piece loses the margin, the longest string of spaces and
    tabs that all the pieces with another character start with; the \n
    between the pieces stay and nothing else changes. *)
Theorem step_doc_string_text
    (st : state) (lines : list pystr) (subtree : list value)
    (first last : pystr) (start_line end_line : Z) :
  featurefile_contents st = Some lines ->
  head subtree = Some (VToken first start_line) ->
  Py.last_item subtree = Some (VToken last end_line) ->
  1 <= start_line <= end_line ->
  let segs := Textwrap.split_nl (source_slice lines start_line end_line) in
  exists margin,
    step_doc_string subtree st
      = (Return (VStr (Textwrap.join_nl (map (dedent_line margin) segs))),
         st) /\
    forallb Textwrap.is_blank margin = true /\
    (forall seg, seg ∈ segs -> forallb Textwrap.is_blank seg = false ->
                 margin `prefix_of` seg) /\
    (forall w,
        forallb Textwrap.is_blank w = true ->
        (exists seg, seg ∈ segs /\ forallb Textwrap.is_blank seg = false) ->
        (forall seg, seg ∈ segs -> forallb Textwrap.is_blank seg = false ->
                     w `prefix_of` seg) ->
        w `prefix_of` margin).
Proof.
  intros Hlines Hhead Hlast Hrange segs.
  destruct (dedent_lines (source_slice lines start_line end_line))
    as (margin & Hdedent & Hfacts).
  exists margin. split; [|exact Hfacts].
  unfold step_doc_string, py_index.
  destruct subtree as [|x rest]; [discriminate|].
  injection Hhead as ->. rewrite Hlast.
  cbv [mbind mret M_bind M_ret gets require nth_error attr_line].
  rewrite Hlines. rewrite slice_source_lines by assumption.
  unfold segs. rewrite <- Hdedent. reflexivity.
Qed.

Lemma step_doc_string_text_witness :
  let st := prepare Sample.path doc_string_source 1 __init__ in
  exists margin,
    step_doc_string
      [VToken (py "a") 1; VToken (py "") 2; VToken (py "b") 3] st
      = (Return
           (VStr (Textwrap.join_nl
                    (map (dedent_line margin)
                         [py "    a"; py "      "; py "    b"; []]))), st) /\
    forallb Textwrap.is_blank margin = true.
Proof.
  intros st.
  destruct (step_doc_string_text st
              [py "    a" ++ LF; py "      " ++ LF; py "    b" ++ LF]
              [VToken (py "a") 1; VToken (py "") 2; VToken (py "b") 3]
              (py "a") (py "b") 1 3)
    as (margin & H & Hblank & _);
    [reflexivity | reflexivity | reflexivity | lia |].
  exists margin. split; [exact H | exact Hblank].
Defined.

(** * Further properties of the reductions *)

(** ** Scenarios, loops and backgrounds *)

(** X1: a Scenario Loop takes the current scenario id and moves the
    scenario counter on by 1 + iterations, whatever the sign of the
    iteration count and whatever follows it among the children; the step
    counter becomes 1 and the keyword context stays. *)
Theorem scenario_loop_ids
    (st : state) (id : Z) (path : pystr) (tags steps rest : list value)
    (text : pystr) (line k : Z) :
  scenario_id st = Some id ->
  featurefile_path st = Some path ->
  forallb is_Tag tags = true ->
  forallb is_Step steps = true ->
  scenario_loop (tags ++ VToken text line :: steps ++ VInt k :: rest) st
    = (Return (VScenarioLoop id (VToken text line) tags path line steps
                             (VInt k)),
       set_step_id (Some 1) (set_scenario_id (Some (id + (1 + k))) st)).
Proof.
  intros Hid Hpath Htags Hsteps. unfold scenario_loop.
  rewrite (takewhile_app_stop is_Tag tags) by auto.
  unfold py_index. rewrite nth_error_length_app.
  rewrite skipn_length_plus_app. simpl skipn. rewrite !drop_0.
  rewrite (takewhile_app_stop is_Step steps) by auto.
  replace (tags ++ VToken text line :: steps ++ VInt k :: rest)
    with ((tags ++ VToken text line :: steps) ++ VInt k :: rest)
    by (rewrite <- app_assoc; reflexivity).
  replace (length tags + 1 + length steps)%nat
    with (length (tags ++ VToken text line :: steps))
    by (rewrite length_app; simpl; lia).
  rewrite nth_error_length_app.
  run. rewrite Hpath. run. rewrite Hid. reflexivity.
Qed.

Lemma scenario_loop_ids_witness :
  scenario_loop
    ([VTag (py "@slow") Sample.path 1] ++ VToken (py "L") 2
       :: [VStep 1 (py "Given") (py "Given") (VToken (py "a") 3) VNone VNone
                 Sample.path 3]
       ++ VInt (-4) :: [])
    (prepare Sample.path (py "") 1 __init__)
    = (Return (VScenarioLoop 1 (VToken (py "L") 2)
                 [VTag (py "@slow") Sample.path 1] Sample.path 2
                 [VStep 1 (py "Given") (py "Given") (VToken (py "a") 3)
                        VNone VNone Sample.path 3]
                 (VInt (-4))),
       set_step_id (Some 1)
         (set_scenario_id (Some (1 + (1 + -4)))
            (prepare Sample.path (py "") 1 __init__))).
Proof.
  apply (scenario_loop_ids (prepare Sample.path (py "") 1 __init__) 1
           Sample.path); reflexivity.
Defined.

(** X2: a Scenario is made of its leading tags, the token after them as
    short description and the line of that token, and all the children
    that follow as steps; it takes the current scenario id, and leaves the
    scenario counter one higher, the step counter at 1 and no keyword
    context. *)
Theorem scenario_fields
    (st : state) (id : Z) (path : pystr) (tags steps : list value)
    (text : pystr) (line : Z) :
  scenario_id st = Some id ->
  featurefile_path st = Some path ->
  forallb is_Tag tags = true ->
  scenario (tags ++ VToken text line :: steps) st
    = (Return (VScenario id (VToken text line) tags path line steps),
       set_step_keyword_ctx None
         (set_step_id (Some 1) (set_scenario_id (Some (id + 1)) st))).
Proof.
  intros Hid Hpath Htags. unfold scenario.
  rewrite (takewhile_app_stop is_Tag tags) by auto.
  replace (length tags) with (length tags + 0)%nat by lia.
  rewrite skipn_length_plus_app. simpl skipn.
  run. rewrite Hpath. run. rewrite Hid. reflexivity.
Qed.

Lemma scenario_fields_witness :
  scenario
    ([VTag (py "@wip") Sample.path 1] ++ VToken (py "S") 2
       :: [VStep 1 (py "Given") (py "Given") (VToken (py "a") 3) VNone VNone
                 Sample.path 3])
    Sample.used
    = (Return (VScenario 1 (VToken (py "S") 2)
                 [VTag (py "@wip") Sample.path 1] Sample.path 2
                 [VStep 1 (py "Given") (py "Given") (VToken (py "a") 3)
                        VNone VNone Sample.path 3]),
       set_step_keyword_ctx None
         (set_step_id (Some 1) (set_scenario_id (Some (1 + 1)) Sample.used))).
Proof.
  apply (scenario_fields Sample.used 1 Sample.path); reflexivity.
Defined.

(** X3: the three shapes of a Background.  Without children it has no
    description, no steps and line 0; when its first child is a Step all
    children are its steps and its line is 0; when its first child is a
    token, that token is the description, the line is the line of the
    token, or 0 when the token is the empty string, and the other children
    are the steps.  No attribute changes. *)
Theorem background_shapes
    (st : state) (path : pystr) (v : value) (rest : list value)
    (text : pystr) (line : Z) :
  featurefile_path st = Some path ->
  is_Step v = true ->
  background [] st = (Return (VBackground VNone path 0 []), st) /\
  background (v :: rest) st
    = (Return (VBackground VNone path 0 (v :: rest)), st) /\
  background (VToken text line :: rest) st
    = (Return (VBackground (VToken text line) path
                           (match text with [] => 0 | _ => line end) rest),
       st).
Proof.
  intros Hpath Hv. unfold background. rewrite Hv. run. rewrite Hpath.
  repeat split. now destruct text.
Qed.

Lemma background_shapes_witness :
  let st := prepare Sample.path (py "") 1 __init__ in
  let s := VStep 1 (py "Given") (py "Given") (VToken (py "a") 3) VNone VNone
                 Sample.path 3 in
  background [s] st = (Return (VBackground VNone Sample.path 0 [s]), st) /\
  background [VToken (py "B") 2; s] st
    = (Return (VBackground (VToken (py "B") 2) Sample.path 2 [s]), st) /\
  background [VToken (py "") 2; s] st
    = (Return (VBackground (VToken (py "") 2) Sample.path 0 [s]), st).
Proof.
  intros st s.
  destruct (background_shapes st Sample.path s [] (py "B") 2
              eq_refl eq_refl) as (_ & H1 & _).
  destruct (background_shapes st Sample.path s [s] (py "B") 2
              eq_refl eq_refl) as (_ & _ & H2).
  destruct (background_shapes st Sample.path s [s] (py "") 2
              eq_refl eq_refl) as (_ & _ & H3).
  repeat split; assumption.
Defined.

(** ** Steps *)

(** X4: a step whose keyword, white space removed, is Given, When or Then
    is always accepted, whatever the keyword context was: it takes the
    current step id, its context keyword is its own keyword, which becomes
    the keyword context, and the step counter moves on by one. *)
Theorem step_first_level
    (st : state) (path keyword : pystr) (id line : Z)
    (text doc_string data_table : value) :
  Py.strip keyword ∈ FIRST_LEVEL_STEP_KEYWORDS ->
  featurefile_path st = Some path ->
  step_id st = Some id ->
  step [VToken keyword line; text; VTuple [doc_string; data_table]] st
    = (Return (VStep id (Py.strip keyword) (Py.strip keyword) text
                     doc_string data_table path line),
       State (featurefile_path st) (featurefile_contents st) (feature_id st)
             (Some (id + 1)) (scenario_id st) (Some (Py.strip keyword))).
Proof.
  intros Hkw Hpath Hid. unfold step. run.
  destruct st as [p c f s sc [ctx|]]; simpl in *; subst;
    rewrite (bool_decide_eq_true_2 _ Hkw); [|reflexivity].
  case_bool_decide as Hne; simpl; [reflexivity|].
  now subst ctx.
Qed.

Lemma step_first_level_witness :
  step [VToken (py "When ") 4; VToken (py "x") 4; VTuple [VNone; VNone]]
       Sample.used
    = (Return (VStep 2 (py "When") (py "When") (VToken (py "x") 4) VNone
                     VNone Sample.path 4),
       State (Some Sample.path) (Some []) (Some 1) (Some 3) (Some 1)
             (Some (py "When"))).
Proof.
  apply (step_first_level Sample.used Sample.path (py "When ") 2 4);
    [apply (bool_decide_unpack _); vm_compute; exact I
    | reflexivity | reflexivity].
Defined.

(** X5: once a keyword context is set, a step with any keyword other than
    Given, When and Then is accepted, And and But like any other word: it
    takes the keyword context as its context keyword and leaves it as it
    is; only the step counter changes. *)
Theorem step_other_keyword
    (st : state) (path keyword ctx : pystr) (id line : Z)
    (text doc_string data_table : value) :
  Py.strip keyword ∉ FIRST_LEVEL_STEP_KEYWORDS ->
  step_keyword_ctx st = Some ctx ->
  featurefile_path st = Some path ->
  step_id st = Some id ->
  step [VToken keyword line; text; VTuple [doc_string; data_table]] st
    = (Return (VStep id ctx (Py.strip keyword) text doc_string data_table
                     path line),
       set_step_id (Some (id + 1)) st).
Proof.
  intros Hkw Hctx Hpath Hid. unfold step. run.
  rewrite Hctx. rewrite (bool_decide_eq_false_2 _ Hkw). simpl.
  rewrite Hpath. simpl. rewrite Hid. reflexivity.
Qed.

Lemma step_other_keyword_witness :
  step [VToken (py "Maybe ") 4; VToken (py "x") 4; VTuple [VNone; VNone]]
       Sample.used
    = (Return (VStep 2 (py "Given") (py "Maybe") (VToken (py "x") 4) VNone
                     VNone Sample.path 4),
       set_step_id (Some (2 + 1)) Sample.used).
Proof.
  apply (step_other_keyword Sample.used Sample.path (py "Maybe ")
           (py "Given") 2 4);
    [apply (bool_decide_eq_false_1 _); vm_compute; reflexivity
    | reflexivity | reflexivity | reflexivity].
Defined.

(** ** Reductions that leave the attributes alone *)

Lemma readonly_mret {A} (a : A) : readonly (mret a).
Proof. intros st. reflexivity. Qed.

Lemma readonly_raise {A} e : readonly (@raise A e).
Proof. intros st. reflexivity. Qed.

Lemma readonly_py_raise {A} e : readonly (@py_raise A e).
Proof. intros st. reflexivity. Qed.

Lemma readonly_gets {A} (f : state -> A) : readonly (gets f).
Proof. intros st. reflexivity. Qed.

Lemma readonly_require {A} e (o : option A) : readonly (require e o).
Proof. destruct o; intros st; reflexivity. Qed.

Lemma readonly_bind {A B} (m : M A) (k : A -> M B) :
  readonly m -> (forall a, readonly (k a)) -> readonly (m ≫= k).
Proof.
  intros Hm Hk st. unfold mbind, M_bind. specialize (Hm st).
  destruct (m st) as [[a|e] st1]; simpl in Hm; subst; [apply Hk|reflexivity].
Qed.

Lemma readonly_mapM_ {A B} (f : A -> M B) l :
  (forall a, readonly (f a)) -> readonly (mapM_ f l).
Proof.
  intros Hf. induction l as [|a l IH]; simpl; [apply readonly_mret|].
  apply readonly_bind; [apply Hf|]. intros b.
  apply readonly_bind; [apply IH|]. intros bs. apply readonly_mret.
Qed.

Create HintDb readonly.
#[local] Hint Resolve readonly_mret readonly_raise readonly_py_raise
  readonly_gets readonly_require : readonly.

Ltac readonly_body :=
  repeat match goal with
         | |- readonly (_ ≫= _) => apply readonly_bind; [|intros]
         | |- readonly (mapM_ _ _) => apply readonly_mapM_; intros
         | |- readonly (match ?x with _ => _ end) => destruct x
         | |- readonly _ => solve [auto with readonly]
         end.

Lemma readonly_py_len v : readonly (py_len v).
Proof. unfold py_len. readonly_body. Qed.
Lemma readonly_py_iter v : readonly (py_iter v).
Proof. unfold py_iter. readonly_body. Qed.
Lemma readonly_attr_line v : readonly (attr_line v).
Proof. unfold attr_line. readonly_body. Qed.
Lemma readonly_attr_path v : readonly (attr_path v).
Proof. unfold attr_path. readonly_body. Qed.
Lemma readonly_py_strip v : readonly (py_strip v).
Proof. unfold py_strip. readonly_body. Qed.
Lemma readonly_py_str v : readonly (py_str v).
Proof. unfold py_str. readonly_body. Qed.
Lemma readonly_py_int v : readonly (py_int v).
Proof. unfold py_int. readonly_body. Qed.
Lemma readonly_py_index l i : readonly (py_index l i).
Proof. unfold py_index. readonly_body. Qed.
Lemma readonly_check_key k : readonly (check_key k).
Proof. unfold check_key. readonly_body. Qed.
Lemma readonly_get_featurefile_path : readonly get_featurefile_path.
Proof. unfold get_featurefile_path. readonly_body. Qed.

#[local] Hint Resolve readonly_py_len readonly_py_iter readonly_attr_line
  readonly_attr_path readonly_py_strip readonly_py_str readonly_py_int
  readonly_py_index readonly_check_key readonly_get_featurefile_path
  : readonly.

Lemma readonly_unpack2 v : readonly (unpack2 v).
Proof. unfold unpack2. readonly_body. Qed.
Lemma readonly_unpack3 v : readonly (unpack3 v).
Proof. unfold unpack3. readonly_body. Qed.
Lemma readonly_dict_of_pairs kvs d : readonly (dict_of_pairs d kvs).
Proof.
  revert d. induction kvs as [|[k v] kvs IH]; intros d; simpl;
    readonly_body.
Qed.
Lemma readonly_set_rule_all l : readonly (set_rule_all l).
Proof. unfold set_rule_all. readonly_body. Qed.
Lemma readonly_set_background b r : readonly (set_background b r).
Proof. unfold set_background. readonly_body. Qed.

#[local] Hint Resolve readonly_unpack2 readonly_unpack3
  readonly_dict_of_pairs readonly_set_rule_all readonly_set_background
  : readonly.

Lemma readonly_dict_zip h r : readonly (dict_zip h r).
Proof. unfold dict_zip. readonly_body. Qed.
Lemma readonly_set_feature_all r : readonly (set_feature_all r).
Proof. unfold set_feature_all. readonly_body. Qed.

#[local] Hint Resolve readonly_dict_zip readonly_set_feature_all : readonly.

Lemma readonly_start l : readonly (start l).
Proof. unfold start. readonly_body. Qed.
Lemma readonly_step_doc_string l : readonly (step_doc_string l).
Proof. unfold step_doc_string. readonly_body. Qed.
Lemma readonly__table_cell l : readonly (_table_cell l).
Proof. unfold _table_cell. readonly_body. Qed.
Lemma readonly__table_row l : readonly (_table_row l).
Proof. unfold _table_row. readonly_body. Qed.
Lemma readonly_step_data_table l : readonly (step_data_table l).
Proof. unfold step_data_table. readonly_body. Qed.
Lemma readonly_step_arguments l : readonly (step_arguments l).
Proof. unfold step_arguments. readonly_body. Qed.
Lemma readonly_examples l : readonly (examples l).
Proof. unfold examples. readonly_body. Qed.
Lemma readonly_iterations l : readonly (iterations l).
Proof. unfold iterations. readonly_body. Qed.
Lemma readonly_background l : readonly (background l).
Proof. unfold background. readonly_body. Qed.
Lemma readonly_rule l : readonly (rule l).
Proof. unfold rule. readonly_body. Qed.
Lemma readonly_description l : readonly (description l).
Proof. unfold description. readonly_body. Qed.
Lemma readonly_feature_body l : readonly (feature_body l).
Proof. unfold feature_body. readonly_body. Qed.
Lemma readonly_feature l : readonly (feature l).
Proof. unfold feature. readonly_body. Qed.
Lemma readonly_tag l : readonly (tag l).
Proof. unfold tag. readonly_body. Qed.

#[local] Hint Resolve readonly_start readonly_step_doc_string
  readonly__table_cell readonly__table_row readonly_step_data_table
  readonly_step_arguments readonly_examples readonly_iterations
  readonly_background readonly_rule readonly_description
  readonly_feature_body readonly_feature readonly_tag : readonly.

Lemma call_userfunc_readonly (data : pystr) (children : list value) :
  data ∉ writing_rules -> readonly (_call_userfunc data children).
Proof.
  intros Hdata. unfold writing_rules in Hdata.
  rewrite !not_elem_of_cons in Hdata.
  destruct Hdata as (H1 & H2 & H3 & H4 & _).
  unfold _call_userfunc, step_data_table_cell, step_data_table_row,
    example_cell, example_row.
  repeat (case_bool_decide; [first [congruence | now auto with readonly]|]).
  apply readonly_raise.
Qed.

Lemma reading_not_writing (data : pystr) :
  data ∈ reading_rules -> data ∉ writing_rules.
Proof.
  assert (H : Forall (fun d => d ∉ writing_rules) reading_rules)
    by (apply (bool_decide_unpack _); vm_compute; exact I).
  rewrite Forall_forall in H. apply H.
Qed.

(** X6: of the twenty reductions only those of a step, a Scenario, a
    Scenario Outline and a Scenario Loop assign an attribute of the
    transformer; each of the sixteen others returns or raises with the
    attributes as they were. *)
Theorem other_rules_keep_state
    (data : pystr) (children : list value) (st : state) :
  data ∈ reading_rules ->
  snd (_call_userfunc data children st) = st.
Proof.
  intros Hdata. now apply call_userfunc_readonly, reading_not_writing.
Qed.

Lemma other_rules_keep_state_witness :
  snd (_call_userfunc (py "background")
         [VStep 1 (py "Given") (py "Given") (VToken (py "a") 3) VNone VNone
                Sample.path 3]
         Sample.used) = Sample.used.
Proof.
  apply other_rules_keep_state.
  apply (bool_decide_unpack _). vm_compute. exact I.
Defined.

(** ** What a traversal keeps *)

Lemma preserves_readonly {A} (I : state -> Prop) (m : M A) :
  readonly m -> preserves I m.
Proof. intros Hm st HI. now rewrite Hm. Qed.

Lemma preserves_bind {A B} (I : state -> Prop) (m : M A) (k : A -> M B) :
  preserves I m -> (forall a, preserves I (k a)) -> preserves I (m ≫= k).
Proof.
  intros Hm Hk st HI. unfold mbind, M_bind. specialize (Hm st HI).
  destruct (m st) as [[a|e] st1]; simpl in Hm; [now apply Hk|assumption].
Qed.

Lemma preserves_modify (I : state -> Prop) (f : state -> state) :
  (forall st, I st -> I (f st)) -> preserves I (modify f).
Proof. intros Hf st HI. now apply Hf. Qed.

Lemma preserves_mapM_ {A B} (I : state -> Prop) (f : A -> M B) l :
  Forall (fun a => preserves I (f a)) l -> preserves I (mapM_ f l).
Proof.
  induction 1 as [|a l Ha _ IH]; simpl.
  - apply preserves_readonly, readonly_mret.
  - apply preserves_bind; [assumption|]. intros b.
    apply preserves_bind; [assumption|]. intros bs.
    apply preserves_readonly, readonly_mret.
Qed.

Lemma tree_ind' (P : tree -> Prop) :
  (forall text line, P (Token text line)) ->
  (forall data children, Forall P children -> P (Tree data children)) ->
  forall t, P t.
Proof.
  intros Htoken Htree. fix IH 1. intros [data children|text line].
  - apply Htree. induction children as [|c cs IHcs]; constructor.
    + apply IH.
    + apply IHcs.
  - apply Htoken.
Qed.

(** The children of a node are reduced as [mapM_] goes through them. *)
Lemma transform_Tree data children :
  transform (Tree data children)
    = (mapM_ transform children ≫= _call_userfunc data).
Proof.
  cbn [transform]. f_equal.
  induction children as [|c cs IH]; [reflexivity|].
  cbn [mapM_]. now rewrite IH.
Qed.

(** A property of the attributes that every reduction keeps is kept by the
    traversal of any tree. *)
Lemma transform_preserves (I : state -> Prop) :
  (forall data children, preserves I (_call_userfunc data children)) ->
  forall t, preserves I (transform t).
Proof.
  intros Hcall. induction t as [text line|data children IH] using tree_ind'.
  - apply preserves_readonly, readonly_mret.
  - rewrite transform_Tree. apply preserves_bind.
    + now apply preserves_mapM_.
    + intros vs. apply Hcall.
Qed.

Ltac preserves_body :=
  repeat match goal with
         | |- preserves _ (_ ≫= _) => apply preserves_bind; [|intros]
         | |- preserves _ (match ?x with _ => _ end) => destruct x
         | |- preserves _ (modify _) => apply preserves_modify
         | |- preserves _ _ =>
             solve [apply preserves_readonly; auto with readonly]
         end.

Lemma same_file_refl st : same_file st st.
Proof. now repeat split. Qed.

(** The method of a rule is the one named after it. *)
Lemma call_userfunc_step : _call_userfunc (py "step") = step.
Proof. reflexivity. Qed.
Lemma call_userfunc_scenario : _call_userfunc (py "scenario") = scenario.
Proof. reflexivity. Qed.
Lemma call_userfunc_scenario_outline :
  _call_userfunc (py "scenario_outline") = scenario_outline.
Proof. reflexivity. Qed.
Lemma call_userfunc_scenario_loop :
  _call_userfunc (py "scenario_loop") = scenario_loop.
Proof. reflexivity. Qed.

(** A property kept by the four reductions that write is kept by all. *)
Lemma call_userfunc_preserves (I : state -> Prop) :
  (forall children, preserves I (step children)) ->
  (forall children, preserves I (scenario children)) ->
  (forall children, preserves I (scenario_outline children)) ->
  (forall children, preserves I (scenario_loop children)) ->
  forall data children, preserves I (_call_userfunc data children).
Proof.
  intros Hstep Hscenario Houtline Hloop data children.
  destruct (decide (data ∈ writing_rules)) as [Hin|Hout].
  - unfold writing_rules in Hin. rewrite !elem_of_cons in Hin.
    destruct Hin as [->|[->|[->|[->|Hin]]]]; [| | | |inversion Hin].
    + rewrite call_userfunc_step. apply Hstep.
    + rewrite call_userfunc_scenario. apply Hscenario.
    + rewrite call_userfunc_scenario_outline. apply Houtline.
    + rewrite call_userfunc_scenario_loop. apply Hloop.
  - now apply preserves_readonly, call_userfunc_readonly.
Qed.

Lemma call_userfunc_same_file st0 data children :
  preserves (same_file st0) (_call_userfunc data children).
Proof.
  revert data children. apply call_userfunc_preserves; intros children.
  - unfold step. preserves_body; intros st H; exact H.
  - unfold scenario. preserves_body; intros st H; exact H.
  - unfold scenario_outline. preserves_body; intros st H; exact H.
  - unfold scenario_loop. preserves_body; intros st H; exact H.
Qed.

(** X7: the traversal of a tree all of whose rules have a reduction,
    whether it returns or raises, leaves the path, the cached lines and
    the feature id as [prepare] has set them: the reductions only read
    them. *)
Theorem transform_keeps_file (t : tree) (st : state) :
  known_tree t = true ->
  featurefile_path (snd (transform t st)) = featurefile_path st /\
  featurefile_contents (snd (transform t st)) = featurefile_contents st /\
  feature_id (snd (transform t st)) = feature_id st.
Proof.
  intros _. apply (transform_preserves (same_file st)).
  - apply call_userfunc_same_file.
  - apply same_file_refl.
Qed.

Lemma transform_keeps_file_witness :
  let st := prepare Sample.path (py "") 1 __init__ in
  known_tree Sample.outline_then_scenario = true /\
  featurefile_path (snd (transform Sample.outline_then_scenario st))
    = featurefile_path st /\
  featurefile_contents (snd (transform Sample.outline_then_scenario st))
    = featurefile_contents st /\
  feature_id (snd (transform Sample.outline_then_scenario st))
    = feature_id st.
Proof.
  intros st.
  assert (H : known_tree Sample.outline_then_scenario = true)
    by (vm_compute; reflexivity).
  split; [exact H|].
  exact (transform_keeps_file Sample.outline_then_scenario st H).
Defined.

(** ** The step counter and the keyword context across a file *)

Lemma counting_set_scenario_id v st :
  counting st -> counting (set_scenario_id v st).
Proof. intros H. exact H. Qed.

Lemma counting_reset_step_id st :
  counting st -> counting (set_step_id (Some 1) st).
Proof. intros [_ Hctx]. split; [exists 1; split; [reflexivity|lia]|exact Hctx]. Qed.

Lemma counting_clear_ctx st :
  counting st -> counting (set_step_keyword_ctx None st).
Proof. intros [Hid _]. split; [exact Hid|]. intros ctx [=]. Qed.

Lemma step_counting children : preserves counting (step children).
Proof.
  intros st Hst. pose proof Hst as [(n & Hn & Hle) Hctx]. unfold step.
  destruct children as [|keyword [|text [|arguments [|? ?]]]];
    try exact Hst.
  unfold mbind at 1, M_bind at 1.
  destruct (unpack2_cases arguments) as [(ds & dt & Hu)|(x & Hu)];
    rewrite Hu; [|exact Hst].
  destruct keyword; run; try exact Hst.
  destruct (step_keyword_ctx st) as [ctx|] eqn:E;
    repeat (case_bool_decide; simpl);
    destruct (featurefile_path st); simpl; rewrite ?Hn; simpl;
    try exact Hst;
    (split; simpl;
     [eexists; split; [first [reflexivity | eassumption]|lia]
     |intros c Hc; first [injection Hc as <-; assumption
                         |apply Hctx; congruence]]).
Qed.

Lemma call_userfunc_counting data children :
  preserves counting (_call_userfunc data children).
Proof.
  revert data children. apply call_userfunc_preserves; intros children.
  - apply step_counting.
  - unfold scenario. preserves_body;
      auto using counting_set_scenario_id, counting_reset_step_id,
                 counting_clear_ctx.
  - unfold scenario_outline. preserves_body;
      auto using counting_set_scenario_id, counting_reset_step_id.
  - unfold scenario_loop. preserves_body;
      auto using counting_set_scenario_id, counting_reset_step_id.
Qed.

(** X8: on a transformer whose keyword context is unset or a first-level
    keyword, as it is after [__init__], the build of a file whose tree has
    only rules with a reduction, whether it returns or raises, ends with a
    step counter of at least 1 and with a keyword context that is unset or
    one of Given, When and Then: the next build starts from such a
    transformer again. *)
Theorem build_keeps_counting
    (path contents : pystr) (id : Z) (t : tree) (st : state) :
  known_tree t = true ->
  (forall ctx, step_keyword_ctx st = Some ctx ->
               ctx ∈ FIRST_LEVEL_STEP_KEYWORDS) ->
  counting (snd (build path contents id t st)).
Proof.
  intros _ Hctx. unfold build.
  apply (transform_preserves counting).
  - apply call_userfunc_counting.
  - split; [exists 1; split; [reflexivity|lia]|exact Hctx].
Qed.

Lemma build_keeps_counting_witness :
  counting (snd (build Sample.path (py "") 1 Sample.and_first __init__)).
Proof.
  apply build_keeps_counting.
  - vm_compute. reflexivity.
  - intros ctx H. discriminate H.
Defined.

(** X9: every step built on such a transformer has an id of at least 1
    and one of Given, When and Then as its context keyword. *)
Theorem built_step_counting
    (subtree : list value) (st st' : state) (v : value) :
  counting st ->
  step subtree st = (Return v, st') ->
  exists id ctx,
    step_id_of v = Some id /\ 1 <= id /\
    keyword_ctx_of v = Some ctx /\ ctx ∈ FIRST_LEVEL_STEP_KEYWORDS.
Proof.
  intros Hst Hstep.
  pose proof (step_counting subtree st Hst) as [_ Hctx'].
  rewrite Hstep in Hctx'. simpl in Hctx'.
  destruct Hst as [(n & Hn & Hle) _].
  apply step_Return in Hstep as (id & ctx & Hid & Hv & _ & Hk & Hctx).
  exists id, ctx. repeat split; auto. congruence.
Qed.

Lemma built_step_counting_witness :
  exists id ctx,
    step_id_of (VStep 2 (py "Given") (py "And") (VToken (py "x") 4) VNone
                      VNone Sample.path 4) = Some id /\ 1 <= id /\
    keyword_ctx_of (VStep 2 (py "Given") (py "And") (VToken (py "x") 4)
                          VNone VNone Sample.path 4) = Some ctx /\
    ctx ∈ FIRST_LEVEL_STEP_KEYWORDS.
Proof.
  apply (built_step_counting
           [VToken (py "And ") 4; VToken (py "x") 4; VTuple [VNone; VNone]]
           Sample.used (set_step_id (Some 3) Sample.used)).
  - split.
    + exists 2. split; [reflexivity|lia].
    + intros ctx H. vm_compute in H. injection H as <-.
      apply (bool_decide_unpack _). vm_compute. exact I.
  - vm_compute. reflexivity.
Defined.

(** ** The feature of a file *)

Lemma returns_mret {A} (Q : A -> Prop) a : Q a -> returns Q (mret a).
Proof. intros H st b st' [= <- _]. exact H. Qed.

Lemma returns_raise {A} (Q : A -> Prop) e : returns Q (raise e).
Proof. intros st b st' [=]. Qed.

Lemma returns_bind {A B} (Q : B -> Prop) (m : M A) (k : A -> M B) :
  (forall a, returns Q (k a)) -> returns Q (m ≫= k).
Proof.
  intros Hk st b st'. unfold mbind, M_bind.
  destruct (m st) as [[a|e] st1]; [apply Hk|discriminate].
Qed.

Ltac returns_body :=
  repeat match goal with
         | |- returns _ (_ ≫= _) => apply returns_bind; intros
         | |- returns _ (match ?x with _ => _ end) => destruct x
         | |- returns _ (mret _) => apply returns_mret; exact I
         | |- returns _ (raise _) => apply returns_raise
         | |- returns _ (py_raise _) => apply returns_raise
         end.

(** Beside [start], which hands on its first child, and [feature], no
    reduction returns a feature. *)
Lemma call_userfunc_not_feature data children :
  data <> py "start" -> data <> py "feature" ->
  returns not_feature (_call_userfunc data children).
Proof.
  intros Hstart Hfeature.
  unfold _call_userfunc, step_data_table_cell, step_data_table_row,
    example_cell, example_row.
  repeat (case_bool_decide; [try congruence|]).
  all: try solve [apply returns_mret; exact I | apply returns_raise].
  all: unfold step_doc_string, _table_cell, step_data_table, step_arguments,
         step, scenario, examples, scenario_outline, iterations,
         scenario_loop, background, rule, description, feature_body, tag;
       returns_body.
Qed.

Lemma feature_Return children st v st' :
  feature children st = (Return v, st') -> feature_of_file st v.
Proof.
  destruct st as [p c f s sc k]. unfold feature, set_feature_all. run.
  split_match; try discriminate; intros [= <- _]; simpl; auto.
Qed.

Lemma mapM__transform_same_file children st :
  same_file st (snd (mapM_ transform children st)).
Proof.
  apply (preserves_mapM_ (same_file st)); [|apply same_file_refl].
  apply Forall_forall. intros c _.
  apply transform_preserves, call_userfunc_same_file.
Qed.

Lemma feature_of_file_same st st1 v :
  same_file st st1 -> feature_of_file st1 v -> feature_of_file st v.
Proof.
  intros (Hp & _ & Hf). destruct v; simpl; auto. now rewrite Hp, Hf.
Qed.

Lemma transform_feature_of_file t :
  forall st v st', transform t st = (Return v, st') -> feature_of_file st v.
Proof.
  induction t as [text line|data children IH] using tree_ind'.
  - intros st v st' [= <- _]. exact I.
  - intros st v st'. rewrite transform_Tree. unfold mbind, M_bind.
    pose proof (mapM__transform_same_file children st) as Hsame.
    destruct (mapM_ transform children st) as [[vs|e] st1] eqn:E;
      [|discriminate].
    simpl in Hsame. intros Hcall.
    destruct (decide (data = py "start")) as [->|Hstart].
    { change (start vs st1 = (Return v, st')) in Hcall.
      destruct children as [|c cs]; cbn [mapM_] in E.
      - injection E as <- <-. now injection Hcall as <- _.
      - unfold mbind at 1, M_bind at 1 in E.
        destruct (transform c st) as [[v0|e] st0] eqn:E0; [|discriminate].
        unfold mbind at 1, M_bind at 1 in E.
        destruct (mapM_ transform cs st0) as [[vs0|e] st2]; [|discriminate].
        injection E as <- <-. injection Hcall as <- _.
        inversion IH as [|? ? Hc _]; subst. eapply Hc, E0. }
    destruct (decide (data = py "feature")) as [->|Hfeature].
    { change (feature vs st1 = (Return v, st')) in Hcall.
      apply feature_Return in Hcall.
      apply (feature_of_file_same st st1); [|assumption].
      destruct Hsame as (Hp & Hc & Hf). now repeat split. }
    pose proof (call_userfunc_not_feature data vs Hstart Hfeature
                  st1 v st' Hcall) as Hv.
    destruct v; simpl in *; auto. destruct Hv.
Qed.

(** X10: when the build of a file whose tree has only rules with a
    reduction returns a feature, that feature has the feature id and the
    path that were given to [prepare], whatever the transformer has built
    before. *)
Theorem build_feature_id
    (path contents : pystr) (fid : Z) (t : tree) (st : state)
    (id : option Z) (short_description description background rules : value)
    (tags : list value) (p : pystr) (line : Z) :
  known_tree t = true ->
  fst (build path contents fid t st)
    = Return (VFeature id short_description description tags p line
                       background rules) ->
  id = Some fid /\ p = path.
Proof.
  unfold build. intros _ H.
  destruct (transform t (prepare path contents fid st)) as [o st'] eqn:E.
  simpl in H. subst o. apply transform_feature_of_file in E.
  simpl in E. destruct E as [-> [= ->]]. auto.
Qed.

Lemma build_feature_id_witness :
  known_tree (Sample.feature_node 1 []) = true /\
  fst (build Sample.path (py "") 7 (Sample.feature_node 1 []) Sample.used)
    = Return (VFeature (Some 7) (VToken (py "Sample") 1) (VList []) []
                       Sample.path 1 VNone (VList [])) /\
  Some 7 = Some 7 /\ Sample.path = Sample.path.
Proof.
  assert (K : known_tree (Sample.feature_node 1 []) = true)
    by (vm_compute; reflexivity).
  assert (H : fst (build Sample.path (py "") 7 (Sample.feature_node 1 [])
                         Sample.used)
              = Return (VFeature (Some 7) (VToken (py "Sample") 1) (VList [])
                                 [] Sample.path 1 VNone (VList [])))
    by (vm_compute; reflexivity).
  split; [exact K|]. split; [exact H|].
  exact (build_feature_id Sample.path (py "") 7 (Sample.feature_node 1 [])
           Sample.used (Some 7) (VToken (py "Sample") 1) (VList []) VNone
           (VList []) [] Sample.path 1 K H).
Defined.

(** ** Whole subtrees *)

Lemma step_accepted st path keyword id line text doc_string data_table :
  featurefile_path st = Some path ->
  step_id st = Some id ->
  first_keyword_ok (step_keyword_ctx st) [(keyword, [], line)] ->
  let ctx' :=
    if bool_decide (Py.strip keyword ∈ FIRST_LEVEL_STEP_KEYWORDS)
    then Py.strip keyword else default [] (step_keyword_ctx st) in
  step [VToken keyword line; text; VTuple [doc_string; data_table]] st
    = (Return (VStep id ctx' (Py.strip keyword) text doc_string data_table
                     path line),
       State (featurefile_path st) (featurefile_contents st) (feature_id st)
             (Some (id + 1)) (scenario_id st) (Some ctx')).
Proof.
  intros Hpath Hid Hok. unfold step. run.
  destruct st as [p c f s sc [ctx|]]; simpl in *; subst.
  - case_bool_decide as Hkw; simpl; [|reflexivity].
    case_bool_decide as Hne; simpl; [reflexivity|]. now subst ctx.
  - now rewrite (bool_decide_eq_true_2 _ Hok).
Qed.

Lemma transform_step_tree keyword text line st :
  transform (step_tree (keyword, text, line)) st
    = step [VToken keyword line; VToken text line; VTuple [VNone; VNone]] st.
Proof. reflexivity. Qed.

Lemma mapM__step_trees specs :
  forall st path id,
    featurefile_path st = Some path ->
    step_id st = Some id ->
    first_keyword_ok (step_keyword_ctx st) specs ->
    exists ctx,
      mapM_ transform (map step_tree specs) st
        = (Return (built_steps path id (default [] (step_keyword_ctx st))
                               specs),
           State (featurefile_path st) (featurefile_contents st)
                 (feature_id st)
                 (Some (id + Z.of_nat (length specs))) (scenario_id st) ctx).
Proof.
  induction specs as [|[[keyword text] line] specs IH]; intros st path id
    Hpath Hid Hok.
  - exists (step_keyword_ctx st). cbn [map mapM_ length built_steps].
    rewrite Z.add_0_r, <- Hid. now destruct st.
  - cbn [map mapM_ built_steps]. unfold mbind at 1, M_bind at 1.
    rewrite transform_step_tree.
    rewrite (step_accepted st path keyword id line) by
      (auto; destruct (step_keyword_ctx st); exact Hok).
    cbv zeta.
    match goal with |- context [State ?p ?c ?f ?s ?sc (Some ?k)] =>
      destruct (IH (State p c f s sc (Some k)) path (id + 1))
        as [ctx Hrest]; [exact Hpath|reflexivity|exact I|]
    end.
    exists ctx. unfold mbind at 1, M_bind at 1. rewrite Hrest.
    cbn [featurefile_path featurefile_contents feature_id scenario_id
         step_keyword_ctx default mret M_ret length].
    do 3 f_equal. lia.
Qed.

Lemma built_steps_ids path specs :
  forall id ctx,
    map step_id_of (built_steps path id ctx specs)
      = map Some (seqZ id (Z.of_nat (length specs))).
Proof.
  induction specs as [|[[keyword text] line] specs IH]; intros id ctx;
    [reflexivity|].
  cbn [built_steps map length step_id_of]. rewrite Nat2Z.inj_succ.
  rewrite seqZ_cons by lia. cbn [map]. rewrite IH. do 3 f_equal. lia.
Qed.

Lemma built_steps_contexts path specs :
  forall id ctx,
    map keyword_ctx_of (built_steps path id ctx specs)
      = map Some (keyword_contexts ctx (map (fun s => Py.strip (fst (fst s)))
                                            specs)).
Proof.
  induction specs as [|[[keyword text] line] specs IH]; intros id ctx;
    [reflexivity|].
  cbn [built_steps map keyword_contexts keyword_ctx_of fst]. now rewrite IH.
Qed.

(** X11: the subtree of a Scenario with a description and steps without
    arguments.  When the transformer is prepared and the first step has a
    first-level keyword (or a keyword context is already set), the
    Scenario is built with the current scenario id; its steps have the
    ids n, n + 1, ... from the value n of the step counter, and their
    context keywords follow the keywords from left to right, a first-level
    keyword replacing the context and any other keyword taking it.
    Afterwards the scenario counter is one higher, the step counter 1 and
    the keyword context unset. *)
Theorem scenario_tree_steps
    (st : state) (path text : pystr) (sid n line : Z)
    (specs : list (pystr * pystr * Z)) :
  featurefile_path st = Some path ->
  scenario_id st = Some sid ->
  step_id st = Some n ->
  first_keyword_ok (step_keyword_ctx st) specs ->
  exists steps,
    transform (Tree (py "scenario") (Token text line :: map step_tree specs))
              st
      = (Return (VScenario sid (VToken text line) [] path line steps),
         State (featurefile_path st) (featurefile_contents st)
               (feature_id st) (Some 1) (Some (sid + 1)) None) /\
    map step_id_of steps = map Some (seqZ n (Z.of_nat (length specs))) /\
    map keyword_ctx_of steps
      = map Some (keyword_contexts
                    (default [] (step_keyword_ctx st))
                    (map (fun s => Py.strip (fst (fst s))) specs)).
Proof.
  intros Hpath Hsid Hn Hok.
  exists (built_steps path n (default [] (step_keyword_ctx st)) specs).
  split; [|split; [apply built_steps_ids | apply built_steps_contexts]].
  rewrite transform_Tree. cbn [mapM_]. unfold mbind at 1 2, M_bind at 1 2.
  cbn [transform mret M_ret]. unfold mbind at 1, M_bind at 1.
  destruct (mapM__step_trees specs st path n Hpath Hn Hok) as [ctx ->].
  cbn [mret M_ret]. rewrite call_userfunc_scenario. unfold scenario.
  cbn [takewhile is_Tag length skipn]. run. rewrite Hpath. run.
  now rewrite Hsid.
Qed.

Lemma scenario_tree_steps_witness :
  exists steps,
    transform
      (Tree (py "scenario")
            (Token (py "S") 2
               :: map step_tree [(py "Given ", py "a", 3);
                                 (py "And ", py "b", 4);
                                 (py "When ", py "c", 5)]))
      (prepare Sample.path (py "") 1 __init__)
      = (Return (VScenario 1 (VToken (py "S") 2) [] Sample.path 2 steps),
         State (Some Sample.path) (Some []) (Some 1) (Some 1) (Some (1 + 1))
               None) /\
    map step_id_of steps = [Some 1; Some 2; Some 3] /\
    map keyword_ctx_of steps
      = [Some (py "Given"); Some (py "Given"); Some (py "When")].
Proof.
  apply (scenario_tree_steps (prepare Sample.path (py "") 1 __init__)
           Sample.path (py "S") 1 1 2
           [(py "Given ", py "a", 3); (py "And ", py "b", 4);
            (py "When ", py "c", 5)]);
    reflexivity.
Defined.

(** ** Cells and data tables *)

Lemma lstrip_head s c : head (Py.lstrip s) = Some c -> Py.isspace c = false.
Proof.
  induction s as [|d s IH]; simpl; [discriminate|].
  destruct (Py.isspace d) eqn:E; [exact IH|]. simpl. now intros [= <-].
Qed.

Lemma lstrip_suffix s : exists k, s = k ++ Py.lstrip s.
Proof.
  induction s as [|d s [k IH]]; simpl; [now exists []|].
  destruct (Py.isspace d).
  - exists (d :: k). simpl. now f_equal.
  - now exists [].
Qed.

Lemma rstrip_prefix s : exists k, s = Py.rstrip s ++ k.
Proof.
  unfold Py.rstrip. destruct (lstrip_suffix (rev s)) as [k Hk].
  exists (rev k). rewrite <- rev_app_distr, <- Hk. now rewrite rev_involutive.
Qed.

Lemma strip_trimmed s : trimmed (Py.strip s).
Proof.
  unfold Py.strip. split; intros c Hc.
  - destruct (rstrip_prefix (Py.lstrip s)) as [k Hk].
    apply (lstrip_head s). rewrite Hk.
    destruct (Py.rstrip (Py.lstrip s)); [discriminate|exact Hc].
  - unfold Py.rstrip in Hc. rewrite rev_alt in Hc.
    change (rev_append ?l []) with (reverse l) in Hc.
    rewrite last_reverse in Hc.
    now apply lstrip_head in Hc.
Qed.

Lemma pairs_ind {A} (P : list A -> Prop) :
  P [] -> (forall c, P [c]) ->
  (forall c d s, P s -> P (d :: s) -> P (c :: d :: s)) ->
  forall s, P s.
Proof.
  intros H0 H1 H2 s.
  assert (H : P s /\ forall c, P (c :: s)); [|apply H].
  induction s as [|d s [IHs IHd]]; split; auto.
Qed.

Lemma replace_escaped_vbar_last s :
  last (Py.replace_escaped_vbar s) = last s.
Proof.
  induction s as [|c|c d s IHs IHd] using pairs_ind; try reflexivity.
  change (Py.replace_escaped_vbar (c :: d :: s))
    with (if ((c =? 92) && (d =? 124))%N
          then 124%N :: Py.replace_escaped_vbar s
          else c :: Py.replace_escaped_vbar (d :: s)).
  destruct ((c =? 92) && (d =? 124))%N eqn:E.
  - apply andb_prop in E as [_ ->%N.eqb_eq].
    rewrite !last_cons, IHs. now destruct (last s).
  - rewrite (last_cons c (Py.replace_escaped_vbar _)), IHd.
    now rewrite (last_cons c).
Qed.

Lemma replace_escaped_vbar_head s c :
  head (Py.replace_escaped_vbar s) = Some c ->
  c = 124%N \/ head s = Some c.
Proof.
  destruct s as [|a [|b s]]; simpl; auto.
  destruct ((a =? 92) && (b =? 124))%N; simpl; intros [= <-]; auto.
Qed.

Lemma replace_escaped_vbar_length s :
  (length (Py.replace_escaped_vbar s) <= length s)%nat.
Proof.
  induction s as [|c|c d s IHs IHd] using pairs_ind; try reflexivity.
  change (Py.replace_escaped_vbar (c :: d :: s))
    with (if ((c =? 92) && (d =? 124))%N
          then 124%N :: Py.replace_escaped_vbar s
          else c :: Py.replace_escaped_vbar (d :: s)).
  destruct ((c =? 92) && (d =? 124))%N; cbn [length] in *; lia.
Qed.

Lemma strip_length s : (length (Py.strip s) <= length s)%nat.
Proof.
  unfold Py.strip.
  destruct (rstrip_prefix (Py.lstrip s)) as [k Hk].
  destruct (lstrip_suffix s) as [k' Hk'].
  apply (f_equal length) in Hk, Hk'. rewrite length_app in Hk, Hk'. lia.
Qed.

(** X12: the value of a table cell has no white space at either end, and
    is never longer than the text of the cell: the text is stripped and
    only then are the escaped bars replaced, which touches neither a first
    nor a last white-space character, there being none.  No attribute
    changes. *)
Theorem table_cell_trimmed
    (text : pystr) (line : Z) (rest : list value) (st : state) :
  _table_cell (VToken text line :: rest) st
    = (Return (VStr (cell_value text)), st) /\
  trimmed (cell_value text) /\
  (length (cell_value text) <= length text)%nat.
Proof.
  split; [reflexivity|]. unfold cell_value.
  destruct (strip_trimmed text) as [Hhead Hlast]. split; [split|].
  - intros c [->|Hc]%replace_escaped_vbar_head; [reflexivity|auto].
  - intros c. rewrite replace_escaped_vbar_last. apply Hlast.
  - etransitivity; [apply replace_escaped_vbar_length | apply strip_length].
Qed.

Lemma call_userfunc_data_cell :
  _call_userfunc (py "step_data_table_cell") = _table_cell.
Proof. reflexivity. Qed.
Lemma call_userfunc_data_row :
  _call_userfunc (py "step_data_table_row") = _table_row.
Proof. reflexivity. Qed.
Lemma call_userfunc_data_table :
  _call_userfunc (py "step_data_table") = step_data_table.
Proof. reflexivity. Qed.

Lemma mapM__Return {A B C} (f : B -> M C) (h : A -> B) (g : A -> C) l st :
  (forall a st, f (h a) st = (Return (g a), st)) ->
  mapM_ f (map h l) st = (Return (map g l), st).
Proof.
  intros Hf. induction l as [|a l IH]; [reflexivity|].
  cbn [mapM_ map]. unfold mbind at 1, M_bind at 1. rewrite Hf.
  unfold mbind at 1, M_bind at 1. now rewrite IH.
Qed.

Lemma transform_data_cell cell st :
  transform (data_cell_tree cell) st
    = (Return (VStr (cell_value (fst cell))), st).
Proof. destruct cell. reflexivity. Qed.

Lemma transform_data_row row st :
  transform (data_row_tree row) st = (Return (cells_of_row row), st).
Proof.
  unfold data_row_tree. rewrite transform_Tree.
  unfold mbind, M_bind.
  rewrite (mapM__Return transform data_cell_tree
             (fun cell => VStr (cell_value (fst cell))))
    by (intros; apply transform_data_cell).
  now rewrite call_userfunc_data_row.
Qed.

(** X13: the subtree of a data table, rows of cells of tokens, is reduced
    to the rows of the values of its cells, in their order, when all rows
    have the same number of cells, and is refused with
    [RadishStepDataTableInconsistentCellCount] when two rows differ in
    length.  No attribute changes either way. *)
Theorem data_table_tree_cells
    (rows : list (list (pystr * Z))) (n : nat) (st : state) :
  (Forall (fun row => length row = n) rows ->
   transform (data_table_tree rows) st
     = (Return (VList (map cells_of_row rows)), st)) /\
  ((exists r1 r2, r1 ∈ rows /\ r2 ∈ rows /\ length r1 <> length r2) ->
   transform (data_table_tree rows) st
     = (Raise RadishStepDataTableInconsistentCellCount, st)).
Proof.
  assert (H : transform (data_table_tree rows) st
              = if (1 <? distinct_lengths (map length rows))%nat
                then (Raise RadishStepDataTableInconsistentCellCount, st)
                else (Return (VList (map cells_of_row rows)), st)).
  { unfold data_table_tree. rewrite transform_Tree.
    unfold mbind at 1, M_bind at 1.
    rewrite (mapM__Return transform data_row_tree cells_of_row)
      by (intros; apply transform_data_row).
    rewrite call_userfunc_data_table. unfold step_data_table.
    unfold mbind, M_bind.
    replace (map cells_of_row rows)
      with (map VList (map (map (fun cell => VStr (cell_value (fst cell))))
                           rows))
      by (rewrite map_map; reflexivity).
    rewrite mapM__py_len_lists. rewrite map_map.
    replace (map (fun r => length (map _ r)) rows) with (map length rows)
      by (apply map_ext; intros; now rewrite length_map).
    now destruct (1 <? distinct_lengths (map length rows))%nat. }
  split.
  - intros Hall. now rewrite H, (even_rows rows n).
  - intros Hne. apply uneven_rows, Nat.ltb_lt in Hne. now rewrite H, Hne.
Qed.

Lemma data_table_tree_cells_witness :
  transform
    (data_table_tree [[(py " a ", 3); (py "b\|c", 3)];
                      [(py "d", 4); (py "  ", 4)]])
    Sample.used
    = (Return (VList [VList [VStr (py "a"); VStr (py "b|c")];
                      VList [VStr (py "d"); VStr (py "")]]), Sample.used) /\
  transform
    (data_table_tree [[(py "a", 3); (py "b", 3)]; [(py "d", 4)]])
    Sample.used
    = (Raise RadishStepDataTableInconsistentCellCount, Sample.used).
Proof.
  split.
  - apply (data_table_tree_cells
             [[(py " a ", 3); (py "b\|c", 3)]; [(py "d", 4); (py "  ", 4)]]
             2 Sample.used).
    repeat constructor.
  - apply (data_table_tree_cells
             [[(py "a", 3); (py "b", 3)]; [(py "d", 4)]] 2 Sample.used).
    exists [(py "a", 3); (py "b", 3)], [(py "d", 4)].
    repeat split; [left | right; left | simpl; lia].
Defined.

(** ** The cached lines *)

Lemma splitlines_keepends_concat s : concat (Py.splitlines_keepends s) = s.
Proof.
  induction s as [|c s IH]; [reflexivity|].
  cbn [Py.splitlines_keepends].
  destruct (Py.is_linebreak c && negb ((c =? 13)%N && Py.starts_with_lf s)).
  - cbn [concat app]. now rewrite IH.
  - destruct (Py.splitlines_keepends s) as [|l ls]; cbn [concat app] in *.
    + now rewrite <- IH.
    + now rewrite <- IH.
Qed.

Lemma splitlines_keepends_nonempty s :
  Forall (fun l => l <> []) (Py.splitlines_keepends s).
Proof.
  induction s as [|c s IH]; [constructor|].
  cbn [Py.splitlines_keepends].
  destruct (Py.is_linebreak c && negb ((c =? 13)%N && Py.starts_with_lf s)).
  - constructor; [discriminate|exact IH].
  - destruct (Py.splitlines_keepends s) as [|l ls].
    + constructor; [discriminate|constructor].
    + inversion IH; subst. constructor; [discriminate|assumption].
Qed.

Lemma slice_all {A} (l : list A) : Py.slice l 0 (Z.of_nat (length l)) = l.
Proof.
  unfold Py.slice, Py.slice_index. change (0 <? 0) with false.
  destruct (Z.ltb_spec (Z.of_nat (length l)) 0) as [?|_]; [lia|].
  rewrite (Z.min_l 0) by lia. rewrite Z.min_id, Nat2Z.id.
  change (Z.to_nat 0) with 0%nat.
  rewrite Nat.sub_0_r. cbn [skipn]. apply firstn_all.
Qed.

(** X14: [prepare] caches the text of the file without loss: the cached
    lines, none of them empty, give the text back when they are put one
    after the other, so that a doc string whose tokens go from the first
    line to the last is the whole text, dedented. *)
Theorem prepare_caches_the_text
    (path contents first last : pystr) (id : Z) (st : state) :
  exists lines,
    featurefile_contents (prepare path contents id st) = Some lines /\
    concat lines = contents /\
    Forall (fun l => l <> []) lines /\
    step_doc_string
      [VToken first 1; VToken last (Z.of_nat (length lines))]
      (prepare path contents id st)
      = (Return (VStr (Textwrap.dedent contents)),
         prepare path contents id st).
Proof.
  exists (Py.splitlines_keepends contents).
  split; [reflexivity|]. split; [apply splitlines_keepends_concat|].
  split; [apply splitlines_keepends_nonempty|].
  unfold step_doc_string. run.
  change (1 - 1) with 0. rewrite slice_all.
  now rewrite splitlines_keepends_concat.
Qed.

(** ** More on doc strings *)

Section DedentAgain.
Import Textwrap.

Lemma split_nl_cons s : exists seg segs, split_nl s = seg :: segs.
Proof.
  induction s as [|c s (seg & segs & IH)]; simpl; [eauto|].
  destruct (c =? 10)%N; [eauto|]. rewrite IH. eauto.
Qed.

Lemma split_nl_no_lf s : Forall (fun seg => 10%N ∉ seg) (split_nl s).
Proof.
  induction s as [|c s IH]; simpl.
  - constructor; [|constructor]. intros H. inversion H.
  - destruct (N.eqb_spec c 10) as [->|Hc].
    + constructor; [|exact IH]. intros H. inversion H.
    + destruct (split_nl s) as [|seg segs]; inversion IH; subst.
      * constructor; [|constructor].
        intros [E|H]%elem_of_cons; [congruence|inversion H].
      * constructor; [|assumption].
        intros [E|H]%elem_of_cons; [congruence|auto].
Qed.

Lemma split_nl_app_lf seg rest :
  10%N ∉ seg -> split_nl (seg ++ 10%N :: rest) = seg :: split_nl rest.
Proof.
  induction seg as [|c seg IH]; intros Hseg; simpl.
  - reflexivity.
  - destruct (N.eqb_spec c 10) as [->|Hc]; [destruct Hseg; left|].
    rewrite IH by (intros H; apply Hseg; now right). reflexivity.
Qed.

Lemma split_nl_no_lf_id seg : 10%N ∉ seg -> split_nl seg = [seg].
Proof.
  induction seg as [|c seg IH]; intros Hseg; simpl; [reflexivity|].
  destruct (N.eqb_spec c 10) as [->|Hc]; [destruct Hseg; left|].
  rewrite IH by (intros H; apply Hseg; now right). reflexivity.
Qed.

(** Splitting what has been joined gives the segments back. *)
Lemma split_nl_join_nl segs :
  segs <> [] -> Forall (fun seg => 10%N ∉ seg) segs ->
  split_nl (join_nl segs) = segs.
Proof.
  induction segs as [|seg segs IH]; intros Hne Hall; [congruence|].
  inversion Hall as [|? ? Hseg Hrest]; subst.
  destruct segs as [|seg' segs].
  - simpl. now apply split_nl_no_lf_id.
  - change (join_nl (seg :: seg' :: segs))
      with (seg ++ 10%N :: join_nl (seg' :: segs)).
    rewrite split_nl_app_lf by assumption. f_equal.
    apply IH; [discriminate|assumption].
Qed.

Lemma dedent_line_no_lf margin seg :
  10%N ∉ seg -> 10%N ∉ dedent_line margin seg.
Proof.
  intros Hseg. unfold dedent_line.
  destruct (forallb is_blank seg); [intros H; inversion H|].
  intros H. apply Hseg. rewrite <- (take_drop (length margin) seg).
  apply elem_of_app. now right.
Qed.

Lemma forallb_is_blank_app (a b : pystr) :
  forallb is_blank (a ++ b) = forallb is_blank a && forallb is_blank b.
Proof. apply forallb_app. Qed.

Lemma margin_of_Some_nonblank (segs : list pystr) m :
  margin_of (map blank_out segs) = Some m ->
  exists seg, seg ∈ segs /\ forallb is_blank seg = false.
Proof.
  unfold margin_of.
  destruct (indents (map blank_out segs)) as [|i0 L] eqn:EL; [discriminate|].
  intros _. assert (H : i0 ∈ indents (map blank_out segs))
    by (rewrite EL; left).
  apply elem_of_indents in H as (seg & Hseg & E & _). eauto.
Qed.

(** The lines [dedent] returns are left as they are by [dedent]. *)
Lemma dedent_idempotent text : dedent (dedent text) = dedent text.
Proof.
  destruct (dedent_lines text) as (m & Hd & Hblank & Hpre & Hglb).
  set (segs := split_nl text) in *.
  set (segs2 := map (dedent_line m) segs) in *.
  assert (Hsplit : split_nl (join_nl segs2) = segs2).
  { apply split_nl_join_nl.
    - subst segs2 segs. destruct (split_nl_cons text) as (s & ss & ->).
      discriminate.
    - subst segs2. apply Forall_map.
      eapply Forall_impl; [apply split_nl_no_lf|].
      intros seg. apply dedent_line_no_lf. }
  (* a line that lost the margin still has a character other than a blank *)
  assert (Hkeep : forall seg, seg ∈ segs -> forallb is_blank seg = false ->
            seg = m ++ dedent_line m seg /\
            forallb is_blank (dedent_line m seg) = false).
  { intros seg Hseg E. destruct (Hpre seg Hseg E) as [k ->].
    unfold dedent_line. rewrite E. rewrite drop_app_length.
    split; [reflexivity|].
    rewrite forallb_is_blank_app, Hblank in E. exact E. }
  assert (Hblank2 : map blank_out segs2 = segs2).
  { subst segs2. rewrite map_map. apply map_ext_in. intros seg Hseg.
    apply list_elem_of_In in Hseg. unfold blank_out.
    destruct (forallb is_blank seg) eqn:E.
    - unfold dedent_line. now rewrite E.
    - now rewrite (proj2 (Hkeep seg Hseg E)). }
  rewrite Hd. unfold dedent at 1. rewrite Hsplit, Hblank2.
  pose proof (margin_of_spec segs2) as Hspec.
  pose proof (margin_of_Some_nonblank segs2) as Hsome.
  rewrite Hblank2 in Hspec, Hsome.
  destruct (margin_of segs2) as [[|c m2]|]; try reflexivity.
  exfalso. destruct Hspec as (Hb2 & Hpre2 & _).
  destruct (Hsome _ eq_refl) as (seg2 & Hseg2 & E2).
  assert (Hw : m ++ c :: m2 `prefix_of` m).
  { apply Hglb.
    - now rewrite forallb_is_blank_app, Hblank, Hb2.
    - subst segs2. apply list_elem_of_fmap in Hseg2 as (s0 & -> & Hs0).
      exists s0. split; [assumption|].
      destruct (forallb is_blank s0) eqn:E0; [|reflexivity].
      unfold dedent_line in E2. rewrite E0 in E2. discriminate.
    - intros seg Hseg E. destruct (Hkeep seg Hseg E) as [Heq Hnb].
      rewrite Heq. apply prefix_app. apply Hpre2; [|assumption].
      subst segs2. apply list_elem_of_fmap. eauto. }
  destruct Hw as [k Hk]. apply (f_equal length) in Hk.
  rewrite !length_app in Hk. simpl in Hk. lia.
Qed.
End DedentAgain.

(** The pieces of a dedented text: a piece of blanks only is empty, and
    the pieces with another character share no leading blank. *)
Lemma dedent_pieces text :
  (forall seg, seg ∈ Textwrap.split_nl (Textwrap.dedent text) ->
               forallb Textwrap.is_blank seg = true -> seg = []) /\
  (forall w,
      forallb Textwrap.is_blank w = true ->
      (exists seg, seg ∈ Textwrap.split_nl (Textwrap.dedent text) /\
                   forallb Textwrap.is_blank seg = false) ->
      (forall seg, seg ∈ Textwrap.split_nl (Textwrap.dedent text) ->
                   forallb Textwrap.is_blank seg = false ->
                   w `prefix_of` seg) ->
      w = []).
Proof.
  destruct (dedent_lines text) as (m & Hd & Hblank & Hpre & Hglb).
  set (segs := Textwrap.split_nl text) in *.
  set (segs2 := map (dedent_line m) segs) in *.
  assert (Hsplit : Textwrap.split_nl (Textwrap.dedent text) = segs2).
  { rewrite Hd. apply split_nl_join_nl.
    - subst segs2 segs. destruct (split_nl_cons text) as (s & ss & ->).
      discriminate.
    - subst segs2. apply Forall_map.
      eapply Forall_impl; [apply split_nl_no_lf|].
      intros seg. apply dedent_line_no_lf. }
  rewrite Hsplit.
  assert (Hkeep : forall seg, seg ∈ segs ->
            forallb Textwrap.is_blank seg = false ->
            seg = m ++ dedent_line m seg /\
            forallb Textwrap.is_blank (dedent_line m seg) = false).
  { intros seg Hseg E. destruct (Hpre seg Hseg E) as [k ->].
    unfold dedent_line. rewrite E. rewrite drop_app_length.
    split; [reflexivity|].
    rewrite forallb_is_blank_app, Hblank in E. exact E. }
  split.
  - intros seg2 (seg & -> & Hseg)%list_elem_of_fmap Hb.
    destruct (forallb Textwrap.is_blank seg) eqn:E.
    + unfold dedent_line. now rewrite E.
    + rewrite (proj2 (Hkeep seg Hseg E)) in Hb. discriminate.
  - intros w Hw (seg2 & Hseg2 & E2) Hall.
    apply list_elem_of_fmap in Hseg2 as (s0 & -> & Hs0).
    assert (E0 : forallb Textwrap.is_blank s0 = false).
    { destruct (forallb Textwrap.is_blank s0) eqn:E0; [|reflexivity].
      unfold dedent_line in E2. rewrite E0 in E2. discriminate. }
    assert (Hmw : m ++ w `prefix_of` m).
    { apply Hglb.
      - now rewrite forallb_is_blank_app, Hblank, Hw.
      - eauto.
      - intros seg Hseg E. destruct (Hkeep seg Hseg E) as [Heq Hnb].
        rewrite Heq. apply prefix_app. apply Hall; [|assumption].
        apply list_elem_of_fmap. eauto. }
    destruct Hmw as [k Hk]. apply (f_equal length) in Hk.
    rewrite !length_app in Hk. destruct w; [reflexivity|simpl in Hk; lia].
Qed.

(** X15: the text of a doc string, read as the pieces that lie between two
    \n: every piece made of spaces and tabs only is empty, and the pieces
    that have another character share no leading space or tab, that is,
    the only string of spaces and tabs all of them start with is the empty
    one.  Dedenting the text again therefore changes nothing.  The
    reduction changes no attribute. *)
Theorem doc_string_is_dedented
    (subtree : list value) (st st' : state) (v : value) :
  step_doc_string subtree st = (Return v, st') ->
  exists text,
    v = VStr text /\ st' = st /\
    (forall seg, seg ∈ Textwrap.split_nl text ->
                 forallb Textwrap.is_blank seg = true -> seg = []) /\
    (forall w,
        forallb Textwrap.is_blank w = true ->
        (exists seg, seg ∈ Textwrap.split_nl text /\
                     forallb Textwrap.is_blank seg = false) ->
        (forall seg, seg ∈ Textwrap.split_nl text ->
                     forallb Textwrap.is_blank seg = false ->
                     w `prefix_of` seg) ->
        w = []) /\
    Textwrap.dedent text = text.
Proof.
  intros H. pose proof (readonly_step_doc_string subtree st) as Hst.
  rewrite H in Hst. simpl in Hst. subst st'.
  assert (R : returns (fun v => exists source,
                         v = VStr (Textwrap.dedent source))
                      (step_doc_string subtree)).
  { unfold step_doc_string. repeat (apply returns_bind; intros).
    apply returns_mret. eauto. }
  destruct (R _ _ _ H) as (source & ->).
  exists (Textwrap.dedent source).
  destruct (dedent_pieces source) as [H1 H2].
  repeat split; auto. apply dedent_idempotent.
Qed.

Lemma doc_string_is_dedented_witness :
  exists text,
    VStr (py "a" ++ LF ++ LF ++ py "b" ++ LF) = VStr text /\
    prepare Sample.path doc_string_source 1 __init__
      = prepare Sample.path doc_string_source 1 __init__ /\
    (forall seg, seg ∈ Textwrap.split_nl text ->
                 forallb Textwrap.is_blank seg = true -> seg = []) /\
    (forall w,
        forallb Textwrap.is_blank w = true ->
        (exists seg, seg ∈ Textwrap.split_nl text /\
                     forallb Textwrap.is_blank seg = false) ->
        (forall seg, seg ∈ Textwrap.split_nl text ->
                     forallb Textwrap.is_blank seg = false ->
                     w `prefix_of` seg) ->
        w = []) /\
    Textwrap.dedent text = text.
Proof.
  apply (doc_string_is_dedented
           [VToken (py "a") 1; VToken (py "") 2; VToken (py "b") 3]
           (prepare Sample.path doc_string_source 1 __init__)).
  vm_compute. reflexivity.
Defined.

Lemma slice_outside {A} (lines : list A) (start_line end_line : Z) :
  1 <= start_line ->
  0 <= end_line ->
  Z.of_nat (length lines) < start_line \/ end_line < start_line ->
  Py.slice lines (start_line - 1) end_line = [].
Proof.
  intros Hs He Hout. unfold Py.slice, Py.slice_index.
  destruct (Z.ltb_spec (start_line - 1) 0) as [?|_]; [lia|].
  destruct (Z.ltb_spec end_line 0) as [?|_]; [lia|].
  replace (_ - _)%nat with 0%nat by lia. reflexivity.
Qed.

(** X16: a doc string whose tokens lie after the last cached line, or
    whose last token lies before its first, is the empty string: the
    slice of the cached lines is clipped to the lines there are and no
    error is raised. *)
Theorem doc_string_outside_the_lines
    (st : state) (lines : list pystr) (subtree : list value)
    (first last : pystr) (start_line end_line : Z) :
  featurefile_contents st = Some lines ->
  head subtree = Some (VToken first start_line) ->
  Py.last_item subtree = Some (VToken last end_line) ->
  1 <= start_line ->
  0 <= end_line ->
  Z.of_nat (length lines) < start_line \/ end_line < start_line ->
  step_doc_string subtree st = (Return (VStr []), st).
Proof.
  intros Hlines Hhead Hlast Hs He Hout.
  unfold step_doc_string, py_index.
  destruct subtree as [|x rest]; [discriminate|].
  injection Hhead as ->. rewrite Hlast.
  cbv [mbind mret M_bind M_ret gets require nth_error attr_line].
  rewrite Hlines.
  rewrite slice_outside by assumption. reflexivity.
Qed.

Lemma doc_string_outside_the_lines_witness :
  step_doc_string [VToken (py "a") 7; VToken (py "b") 9]
                  (prepare Sample.path doc_string_source 1 __init__)
    = (Return (VStr []), prepare Sample.path doc_string_source 1 __init__).
Proof.
  apply (doc_string_outside_the_lines
           (prepare Sample.path doc_string_source 1 __init__)
           [py "    a" ++ LF; py "      " ++ LF; py "    b" ++ LF]
           [VToken (py "a") 7; VToken (py "b") 9] (py "a") (py "b") 7 9);
    try reflexivity; try lia.
  left. simpl. lia.
Defined.

(** ** Examples with distinct header names *)

Lemma dict_set_fresh d k v :
  Forall (fun kv => key_eqb k (fst kv) = false) d ->
  dict_set d k v = d ++ [(k, v)].
Proof.
  induction 1 as [|[k' v'] d Hk _ IH]; simpl in *; [reflexivity|].
  now rewrite Hk, IH.
Qed.

Lemma fold_dict_set_distinct (ks : list pystr) :
  forall (vs : list value) d,
    NoDup ks ->
    Forall (fun k => Forall (fun kv => key_eqb (VStr k) (fst kv) = false) d)
           ks ->
    fold_left (fun d kv => dict_set d (fst kv) (snd kv))
              (combine (map VStr ks) vs) d
      = d ++ combine (map VStr ks) vs.
Proof.
  induction ks as [|k ks IH]; intros vs d Hnd Hfresh.
  - simpl. now rewrite app_nil_r.
  - destruct vs as [|v vs]; [simpl; now rewrite app_nil_r|].
    inversion Hnd as [|? ? Hk Hnd']; subst.
    inversion Hfresh as [|? ? Hd Hfresh']; subst.
    cbn [map combine fold_left fst snd].
    rewrite dict_set_fresh by assumption.
    rewrite IH; [now rewrite <- app_assoc|assumption|].
    rewrite Forall_forall in Hfresh'. apply Forall_forall. intros k' Hk'.
    apply Forall_app. split; [now apply Hfresh'|].
    constructor; [|constructor]. simpl. apply bool_decide_eq_false_2.
    intros ->. now apply Hk.
Qed.

(** X17: when the names of the header are pairwise distinct and every row
    has as many cells as the header, the examples are the rows in their
    order, each as the mapping that gives the i-th header name the i-th
    cell of the row, the names in the order of the header. *)
Theorem examples_distinct_header
    (header : list pystr) (data : list (list pystr)) (st : state) :
  NoDup header ->
  Forall (fun row => length row = length header) data ->
  examples (map row_of_cells (header :: data)) st
    = (Return (VList (map (fun row =>
                             VDict (combine (map VStr header)
                                            (map VStr row)))
                          data)), st).
Proof.
  intros Hnd Hall. unfold examples. unfold mbind at 1, M_bind at 1.
  rewrite mapM__py_len_cells.
  rewrite (even_rows (header :: data) (length header))
    by (constructor; auto).
  cbn [map]. unfold mbind, M_bind. rewrite mapM__dict_zip_cells.
  unfold mret, M_ret. do 3 f_equal. apply map_ext. intros row.
  unfold example_of, dict_of. f_equal.
  rewrite fold_dict_set_distinct; [reflexivity|assumption|].
  apply Forall_forall. intros k _. constructor.
Qed.

Lemma examples_distinct_header_witness :
  examples
    (map row_of_cells
         ([py "name"; py "age"]
            :: [[py "Alice"; py "30"]; [py "Bob"; py "40"]]))
    Sample.used
    = (Return
         (VList [VDict [(VStr (py "name"), VStr (py "Alice"));
                        (VStr (py "age"), VStr (py "30"))];
                 VDict [(VStr (py "name"), VStr (py "Bob"));
                        (VStr (py "age"), VStr (py "40"))]]), Sample.used).
Proof.
  apply (examples_distinct_header [py "name"; py "age"]
           [[py "Alice"; py "30"]; [py "Bob"; py "40"]] Sample.used).
  - apply (bool_decide_unpack _). vm_compute. exact I.
  - repeat constructor.
Defined.

(** ** Rules and features *)

(** X18: the body of a feature.  Of the children after the description,
    a leading Background is the background; the scenarios that come before
    the first Rule are put into a DefaultRule that takes the path and the
    line of the first of them and goes in front of the Rules, and there is
    no DefaultRule when there is no such scenario; every rule, the
    DefaultRule included, gets the background of the feature, [None]
    without a Background.  No attribute changes. *)
Theorem feature_body_rules
    (st : state) (description : value) (background : option value)
    (scenarios rules : list value) :
  (forall b, background = Some b -> is_Background b = true) ->
  forallb is_Scenario scenarios = true ->
  forallb is_Rule rules = true ->
  feature_body
    (description :: option_list background ++ scenarios ++ rules) st
    = (Return
         (VTuple [description; default VNone background;
                  VList (map (with_background (default VNone background))
                             (default_rule_of scenarios ++ rules))]), st).
Proof. apply feature_body_well_formed. Qed.

Lemma feature_body_rules_witness :
  let b := VBackground VNone Sample.path 0 [] in
  let s := VScenario 1 (VToken (py "S") 3) [] Sample.path 3 [] in
  let r := VRule (VToken (py "R") 5) Sample.path 5 [] VNone in
  feature_body [VList []; b; s; r] Sample.used
    = (Return
         (VTuple [VList []; b;
                  VList [VDefaultRule Sample.path 3 [s] b;
                         VRule (VToken (py "R") 5) Sample.path 5 [] b]]),
       Sample.used) /\
  feature_body [VList []; r] Sample.used
    = (Return
         (VTuple [VList []; VNone;
                  VList [VRule (VToken (py "R") 5) Sample.path 5 [] VNone]]),
       Sample.used).
Proof.
  intros b s r. split.
  - apply (feature_body_rules Sample.used (VList []) (Some b) [s] [r]);
      [intros ? [= <-]; reflexivity | reflexivity | reflexivity].
  - apply (feature_body_rules Sample.used (VList []) None [] [r]);
      [intros ? [=] | reflexivity | reflexivity].
Defined.

(** X19: a feature is made of its leading tags, the token after them as
    short description, with its line, and of the feature id and the path
    of the transformer.  Without a further child it has no description, no
    background and no rules; otherwise the child after the short
    description gives the three of them, and any child after that one is
    ignored.  No attribute changes. *)
Theorem feature_fields
    (st : state) (path text : pystr) (line : Z)
    (tags rules rest : list value) (description background : value) :
  featurefile_path st = Some path ->
  forallb is_Tag tags = true ->
  forallb is_Rule rules = true ->
  feature (tags ++ [VToken text line]) st
    = (Return (VFeature (feature_id st) (VToken text line) VNone tags path
                        line VNone (VList [])), st) /\
  feature (tags ++ VToken text line
             :: VTuple [description; background; VList rules] :: rest) st
    = (Return (VFeature (feature_id st) (VToken text line) description tags
                        path line background (VList rules)), st).
Proof.
  intros Hpath Htags Hrules. unfold feature, set_feature_all.
  rewrite !(takewhile_app_stop is_Tag tags) by auto.
  unfold py_index. rewrite !nth_error_length_app.
  rewrite !skipn_length_plus_app. run. rewrite Hpath. run.
  now rewrite Hrules.
Qed.

Lemma feature_fields_witness :
  feature [VTag (py "@x") Sample.path 1; VToken (py "F") 2] Sample.used
    = (Return (VFeature (Some 1) (VToken (py "F") 2) VNone
                        [VTag (py "@x") Sample.path 1] Sample.path 2 VNone
                        (VList [])), Sample.used).
Proof.
  apply (feature_fields Sample.used Sample.path (py "F") 2
           [VTag (py "@x") Sample.path 1] [] [] VNone VNone);
    reflexivity.
Defined.

(** X20: the arguments of a step are always a pair, which [step] can
    unpack: [step_arguments] neither raises nor changes an attribute.
    No child gives no doc string and no data table, two children are the
    doc string and the data table in this order, and in every other case
    the first child alone decides, the doc string if it is a string and
    the data table if not, the children after it being dropped. *)
Theorem step_arguments_pair
    (v a b : value) (rest : list value) (st : state) :
  step_arguments [] st = (Return (VTuple [VNone; VNone]), st) /\
  step_arguments [a; b] st = (Return (VTuple [a; b]), st) /\
  step_arguments [v] st
    = (Return (VTuple (if is_str v then [v; VNone] else [VNone; v])), st) /\
  step_arguments (v :: a :: b :: rest) st
    = (Return (VTuple (if is_str v then [v; VNone] else [VNone; v])), st) /\
  forall subtree, exists doc_string data_table,
    step_arguments subtree st
      = (Return (VTuple [doc_string; data_table]), st) /\
    unpack2 (VTuple [doc_string; data_table]) st
      = (Return (doc_string, data_table), st).
Proof.
  repeat split; try (simpl; now destruct (is_str v)).
  intros [|x [|y [|z subtree]]]; simpl; try destruct (is_str x); eauto.
Qed.

(** ** A Rule and its scenarios *)

Lemma transform_scenario_tree st path text sid n line specs :
  featurefile_path st = Some path ->
  scenario_id st = Some sid ->
  step_id st = Some n ->
  first_keyword_ok (step_keyword_ctx st) specs ->
  transform (scenario_tree (text, line, specs)) st
    = (Return (VScenario sid (VToken text line) [] path line
                 (built_steps path n (default [] (step_keyword_ctx st))
                              specs)),
       State (featurefile_path st) (featurefile_contents st)
             (feature_id st) (Some 1) (Some (sid + 1)) None).
Proof.
  intros Hpath Hsid Hn Hok. unfold scenario_tree.
  rewrite transform_Tree. cbn [mapM_]. unfold mbind at 1 2, M_bind at 1 2.
  cbn [transform mret M_ret]. unfold mbind at 1, M_bind at 1.
  destruct (mapM__step_trees specs st path n Hpath Hn Hok) as [ctx ->].
  cbn [mret M_ret]. rewrite call_userfunc_scenario. unfold scenario.
  cbn [takewhile is_Tag length skipn]. run. rewrite Hpath. run.
  now rewrite Hsid.
Qed.

Lemma mapM__scenario_trees specs :
  forall st path sid,
    featurefile_path st = Some path ->
    scenario_id st = Some sid ->
    step_id st = Some 1 ->
    step_keyword_ctx st = None ->
    Forall (fun spec => first_keyword_ok None (snd spec)) specs ->
    mapM_ transform (map scenario_tree specs) st
      = (Return (built_scenarios path sid specs),
         State (featurefile_path st) (featurefile_contents st)
               (feature_id st) (Some 1)
               (Some (sid + Z.of_nat (length specs))) None).
Proof.
  induction specs as [|[[text line] steps] specs IH];
    intros st path sid Hpath Hsid Hn Hctx Hok.
  - cbn [map mapM_ length built_scenarios]. rewrite Z.add_0_r.
    destruct st; simpl in *. now subst.
  - inversion Hok as [|? ? Hfirst Hrest]; subst. simpl in Hfirst.
    cbn [map mapM_ built_scenarios]. unfold mbind at 1, M_bind at 1.
    rewrite (transform_scenario_tree st path text sid 1 line steps)
      by (auto; now rewrite Hctx).
    rewrite Hctx. cbn [default].
    unfold mbind at 1, M_bind at 1.
    rewrite (IH _ path (sid + 1)) by (auto; reflexivity).
    cbn [featurefile_path featurefile_contents feature_id mret M_ret length].
    do 3 f_equal. lia.
Qed.

Lemma built_scenarios_ids path specs :
  forall sid,
    map scenario_id_of (built_scenarios path sid specs)
      = map Some (seqZ sid (Z.of_nat (length specs))).
Proof.
  induction specs as [|[[text line] steps] specs IH]; intros sid;
    [reflexivity|].
  cbn [built_scenarios map length scenario_id_of]. rewrite Nat2Z.inj_succ.
  rewrite seqZ_cons by lia. cbn [map]. rewrite IH. do 3 f_equal. lia.
Qed.

Lemma built_scenarios_step_ids path specs :
  forall sid,
    Forall2 (fun scenario spec =>
               map step_id_of (steps_of scenario)
                 = map Some (seqZ 1 (Z.of_nat (length (snd spec)))))
            (built_scenarios path sid specs) specs.
Proof.
  induction specs as [|[[text line] steps] specs IH]; intros sid;
    constructor; [|apply IH].
  cbn [steps_of snd]. apply built_steps_ids.
Qed.

Lemma built_scenarios_are_scenarios path specs :
  forall sid, forallb is_Scenario (built_scenarios path sid specs) = true.
Proof.
  induction specs as [|[[text line] steps] specs IH]; intros sid;
    [reflexivity|]. cbn [built_scenarios forallb is_Scenario]. apply IH.
Qed.

Lemma call_userfunc_rule : _call_userfunc (py "rule") = rule.
Proof. reflexivity. Qed.

(** X21: the subtree of a Rule whose children are its description and
    Scenarios without tags, the steps of which have no arguments and
    start with a first-level keyword.  On a prepared transformer with a
    step counter of 1 and no keyword context the Rule is built; the ids
    of its scenarios are s, s + 1, ... from the value s of the scenario
    counter, and the step ids of every one of them are 1, 2, ... up to the
    number of its steps.  Afterwards the scenario counter has moved on by
    the number of scenarios, the step counter is 1 and the keyword context
    is unset. *)
Theorem rule_tree_ids
    (st : state) (path text : pystr) (sid line : Z)
    (specs : list (pystr * Z * list (pystr * pystr * Z))) :
  featurefile_path st = Some path ->
  scenario_id st = Some sid ->
  step_id st = Some 1 ->
  step_keyword_ctx st = None ->
  Forall (fun spec => first_keyword_ok None (snd spec)) specs ->
  exists scenarios,
    transform (Tree (py "rule") (Token text line :: map scenario_tree specs))
              st
      = (Return (VRule (VToken text line) path line scenarios VNone),
         State (featurefile_path st) (featurefile_contents st)
               (feature_id st) (Some 1)
               (Some (sid + Z.of_nat (length specs))) None) /\
    map scenario_id_of scenarios
      = map Some (seqZ sid (Z.of_nat (length specs))) /\
    Forall2 (fun scenario spec =>
               map step_id_of (steps_of scenario)
                 = map Some (seqZ 1 (Z.of_nat (length (snd spec)))))
            scenarios specs.
Proof.
  intros Hpath Hsid Hn Hctx Hok.
  exists (built_scenarios path sid specs).
  split; [|split; [apply built_scenarios_ids
                  |apply built_scenarios_step_ids]].
  rewrite transform_Tree. cbn [mapM_]. unfold mbind at 1 2, M_bind at 1 2.
  cbn [transform mret M_ret]. unfold mbind at 1, M_bind at 1.
  rewrite (mapM__scenario_trees specs st path sid) by assumption.
  cbn [mret M_ret]. rewrite call_userfunc_rule. unfold rule, set_rule_all.
  cbn [skipn]. rewrite !drop_0, built_scenarios_are_scenarios. run.
  rewrite Hpath. simpl.
  destruct st; simpl in *. now subst.
Qed.

Lemma rule_tree_ids_witness :
  exists scenarios,
    transform
      (Tree (py "rule")
            (Token (py "R") 2
               :: map scenario_tree
                      [(py "S1", 3, [(py "Given ", py "a", 4);
                                     (py "And ", py "b", 5)]);
                       (py "S2", 6, [(py "When ", py "c", 7)])]))
      (prepare Sample.path (py "") 1 __init__)
      = (Return (VRule (VToken (py "R") 2) Sample.path 2 scenarios VNone),
         State (Some Sample.path) (Some []) (Some 1) (Some 1)
               (Some (1 + Z.of_nat 2)) None) /\
    map scenario_id_of scenarios = [Some 1; Some 2] /\
    Forall2 (fun scenario spec =>
               map step_id_of (steps_of scenario)
                 = map Some (seqZ 1 (Z.of_nat (length (snd spec)))))
            scenarios
            [(py "S1", 3, [(py "Given ", py "a", 4); (py "And ", py "b", 5)]);
             (py "S2", 6, [(py "When ", py "c", 7)])].
Proof.
  apply (rule_tree_ids (prepare Sample.path (py "") 1 __init__)
           Sample.path (py "R") 1 2
           [(py "S1", 3, [(py "Given ", py "a", 4); (py "And ", py "b", 5)]);
            (py "S2", 6, [(py "When ", py "c", 7)])]);
    try reflexivity.
  repeat constructor.
Defined.

(** X22: the free text of a feature is reduced to the texts of its lines,
    in their order, as plain strings: the source lines of the tokens are
    not kept.  No attribute changes. *)
Theorem description_lines (lines : list (pystr * Z)) (st : state) :
  description (map (fun l => VToken (fst l) (snd l)) lines) st
    = (Return (VList (map (fun l => VStr (fst l)) lines)), st).
Proof.
  unfold description. unfold mbind at 1, M_bind at 1.
  rewrite (mapM__Return _ (fun l => VToken (fst l) (snd l))
                        (fun l => VStr (fst l)))
    by reflexivity.
  reflexivity.
Qed.
